(** * Historical ingestion engine (football-data.org): model and properties

    A shallow embedding of [src/app.py]: the payload normaliser, the record
    standardiser, the merge engine, the incremental ingestion orchestrator,
    the recency refresher and the cache entry points, followed by the
    properties stated about them.

    Conventions.
    - Python values are dynamically typed.  A JSON document is a [json]
      value, a frame cell is a [cell] (or a [dcell] in the [Date] column).
      JSON and cell numbers are integers ([Z]); floating-point numbers other
      than NaN are not represented, and integers are assumed to fit the
      64-bit range pandas stores them in.
    - A raised exception is the [Raise] case of [result]; code that performs
      remote calls runs in the state-and-exception monad [M] over [world].
    - A data frame is represented by its rows over the eight columns the
      program names; a row always has all eight cells.
    - What pandas does when it parses a string (dates, integers, numbers)
      is not determined by the program: those parsers are parameters of the
      development and every theorem holds for all of them. *)

From Stdlib Require Import ZArith List String Ascii Bool Lia.
From Stdlib Require Import Permutation DecimalString.
Import ListNotations.

Local Open Scope string_scope.
Local Open Scope Z_scope.

(** ** Exceptions and the result monad *)

Inductive exn : Type :=
| RuntimeError
| HTTPError
| ValueError
| TypeError
| AttributeError
| OverflowError.

Inductive result (A : Type) : Type :=
| Ok (a : A)
| Raise (e : exn).

Arguments Ok {A} a.
Arguments Raise {A} e.

Definition rbind {A B : Type} (m : result A) (k : A -> result B) : result B :=
  match m with
  | Ok a => k a
  | Raise e => Raise e
  end.

Declare Scope result_scope.
Delimit Scope result_scope with result.
Notation "x <- m ;; k" := (rbind m (fun x => k))
  (at level 61, m at next level, right associativity) : result_scope.
Local Open Scope result_scope.

(** A column operation applied element by element: the first element that
    raises aborts the whole operation. *)
Fixpoint mapM {A B : Type} (f : A -> result B) (l : list A) : result (list B) :=
  match l with
  | [] => Ok []
  | x :: xs =>
      y <- f x ;;
      ys <- mapM f xs ;;
      Ok (y :: ys)
  end.

(** ** Strings *)

(** Characters removed by [str.strip()]: the ASCII white space. *)
Definition is_space (c : ascii) : bool :=
  let n := nat_of_ascii c in
  (Nat.eqb n 32 || (Nat.leb 9 n && Nat.leb n 13)
   || (Nat.leb 28 n && Nat.leb n 31))%bool.

Fixpoint lstrip (s : string) : string :=
  match s with
  | EmptyString => EmptyString
  | String c s' => if is_space c then lstrip s' else s
  end.

Fixpoint rstrip (s : string) : string :=
  match s with
  | EmptyString => EmptyString
  | String c s' =>
      match rstrip s' with
      | EmptyString => if is_space c then EmptyString else String c EmptyString
      | t => String c t
      end
  end.

Definition strip (s : string) : string := rstrip (lstrip s).

(** [str(n)] for an integer. *)
Definition str_of_Z (z : Z) : string := NilZero.string_of_int (Z.to_int z).

(** [",".join(l)]. *)
Fixpoint join (sep : string) (l : list string) : string :=
  match l with
  | [] => ""
  | [s] => s
  | s :: rest => s ++ sep ++ join sep rest
  end.

(** ** Calendar dates

    A [datetime.date] is represented by its proleptic Gregorian ordinal
    (0001-01-01 is day 1), which determines it; [date - timedelta(days=n)]
    subtracts ordinals, and [str(date)] renders year, month and day. *)

Definition is_leap (y : Z) : bool :=
  ((y mod 4 =? 0) && (negb (y mod 100 =? 0) || (y mod 400 =? 0)))%bool.

Definition days_before_year (y : Z) : Z :=
  let y' := y - 1 in y' * 365 + y' / 4 - y' / 100 + y' / 400.

Definition days_before_month (y m : Z) : Z :=
  nth (Z.to_nat m) [0; 0; 31; 59; 90; 120; 151; 181; 212; 243; 273; 304; 334] 0
  + (if (2 <? m) && is_leap y then 1 else 0).

Definition ymd2ord (y m d : Z) : Z :=
  days_before_year y + days_before_month y m + d.

Definition ord2ymd (n : Z) : Z * Z * Z :=
  let n := n - 1 in
  let n400 := n / 146097 in
  let n := n mod 146097 in
  let n100 := n / 36524 in
  let n := n mod 36524 in
  let n4 := n / 1461 in
  let n := n mod 1461 in
  let n1 := n / 365 in
  let n := n mod 365 in
  let year := n400 * 400 + 1 + n100 * 100 + n4 * 4 + n1 in
  if (n1 =? 4) || (n100 =? 4) then (year - 1, 12, 31)
  else
    let leapyear := (n1 =? 3) && (negb (n4 =? 24) || (n100 =? 3)) in
    let month := Z.shiftr (n + 50) 5 in
    let preceding :=
      nth (Z.to_nat month) [0; 0; 31; 59; 90; 120; 151; 181; 212; 243; 273; 304; 334] 0
      + (if (2 <? month) && leapyear then 1 else 0) in
    if n <? preceding then
      let month' := month - 1 in
      let dim :=
        nth (Z.to_nat month') [0; 31; 28; 31; 30; 31; 30; 31; 31; 30; 31; 30; 31] 0
        + (if (month' =? 2) && leapyear then 1 else 0) in
      (year, month', n - (preceding - dim) + 1)
    else (year, month, n - preceding + 1).

(** Left padding with zeros, as the [%04d] and [%02d] formats do. *)
Fixpoint zeros (n : nat) : string :=
  match n with
  | O => ""
  | S n' => "0" ++ zeros n'
  end.

Definition zero_pad (width : nat) (s : string) : string :=
  zeros (width - String.length s) ++ s.

(** [str(d)] for a date: ISO format [YYYY-MM-DD]. *)
Definition date_str (d : Z) : string :=
  let '(y, m, dd) := ord2ymd d in
  zero_pad 4 (str_of_Z y) ++ "-" ++ zero_pad 2 (str_of_Z m)
  ++ "-" ++ zero_pad 2 (str_of_Z dd).

(** [d - timedelta(days=n)]: dates before 0001-01-01 do not exist. *)
Definition date_sub_days (d n : Z) : result Z :=
  if 1 <=? d - n then Ok (d - n) else Raise OverflowError.

(** A [Timestamp] is a number of nanoseconds since 1970-01-01 (ordinal
    719163); [.year] is the calendar year of its day. *)
Definition timestamp_year (t : Z) : Z :=
  let '(y, _, _) := ord2ymd (t / 86400000000000 + 719163) in y.

(** ** JSON documents and the Python operations applied to them *)

#[local] Set Warnings "-register-all".

Inductive json : Type :=
| JNull
| JBool (b : bool)
| JInt (z : Z)
| JStr (s : string)
| JList (l : list json)
| JDict (d : list (string * json)).

Fixpoint dict_get (d : list (string * json)) (k : string) : option json :=
  match d with
  | [] => None
  | (k', v) :: d' => if String.eqb k' k then Some v else dict_get d' k
  end.

(** [x.get(k, default)]: only a dict has the method. *)
Definition py_get_default (x : json) (k : string) (default : json) : result json :=
  match x with
  | JDict d => Ok (match dict_get d k with Some v => v | None => default end)
  | _ => Raise AttributeError
  end.

(** [x.get(k)]. *)
Definition py_get (x : json) (k : string) : result json :=
  py_get_default x k JNull.

(** Truth value of a Python object. *)
Definition truthy (x : json) : bool :=
  match x with
  | JNull => false
  | JBool b => b
  | JInt z => negb (z =? 0)
  | JStr s => negb (String.eqb s "")
  | JList l => match l with [] => false | _ => true end
  | JDict d => match d with [] => false | _ => true end
  end.

(** [x or {}]. *)
Definition or_empty (x : json) : json :=
  if truthy x then x else JDict [].

(** [x is None]. *)
Definition is_none (x : json) : bool :=
  match x with JNull => true | _ => false end.

(** [x != s] for a string literal [s]. *)
Definition py_ne_str (x : json) (s : string) : bool :=
  match x with
  | JStr s' => negb (String.eqb s' s)
  | _ => true
  end.

(** [for m in x]: a list yields its elements, a string its characters, a
    dict its keys; other values are not iterable. *)
Definition py_iter (x : json) : result (list json) :=
  match x with
  | JList l => Ok l
  | JStr s => Ok (map (fun c => JStr (String c "")) (list_ascii_of_string s))
  | JDict d => Ok (map (fun kv => JStr (fst kv)) d)
  | _ => Raise TypeError
  end.

(** ** Cells, rows and frames *)

(** A cell of a column other than [Date]: [None], NaN, an integer or a
    string. *)
Inductive cell : Type :=
| VNone
| VNaN
| VInt (z : Z)
| VStr (s : string).

(** A cell of the [Date] column: a [Timestamp] (nanoseconds since the
    epoch), [NaT], or a value not converted yet. *)
Inductive dcell : Type :=
| DTime (t : Z)
| DNaT
| DObj (c : cell).

Record row : Type := mkRow {
  Date : dcell;
  HomeTeam : cell;
  AwayTeam : cell;
  FTHG : cell;
  FTAG : cell;
  Competition : cell;
  CompCode : cell;
  Season : cell
}.

Definition frame : Type := list row.

Definition set_Date (v : dcell) (r : row) : row :=
  mkRow v (HomeTeam r) (AwayTeam r) (FTHG r) (FTAG r) (Competition r) (CompCode r) (Season r).
Definition set_HomeTeam (v : cell) (r : row) : row :=
  mkRow (Date r) v (AwayTeam r) (FTHG r) (FTAG r) (Competition r) (CompCode r) (Season r).
Definition set_AwayTeam (v : cell) (r : row) : row :=
  mkRow (Date r) (HomeTeam r) v (FTHG r) (FTAG r) (Competition r) (CompCode r) (Season r).
Definition set_FTHG (v : cell) (r : row) : row :=
  mkRow (Date r) (HomeTeam r) (AwayTeam r) v (FTAG r) (Competition r) (CompCode r) (Season r).
Definition set_FTAG (v : cell) (r : row) : row :=
  mkRow (Date r) (HomeTeam r) (AwayTeam r) (FTHG r) v (Competition r) (CompCode r) (Season r).
Definition set_Competition (v : cell) (r : row) : row :=
  mkRow (Date r) (HomeTeam r) (AwayTeam r) (FTHG r) (FTAG r) v (CompCode r) (Season r).
Definition set_CompCode (v : cell) (r : row) : row :=
  mkRow (Date r) (HomeTeam r) (AwayTeam r) (FTHG r) (FTAG r) (Competition r) v (Season r).
Definition set_Season (v : cell) (r : row) : row :=
  mkRow (Date r) (HomeTeam r) (AwayTeam r) (FTHG r) (FTAG r) (Competition r) (CompCode r) v.

(** [pd.isna] on a cell. *)
Definition isna (c : cell) : bool :=
  match c with
  | VNone | VNaN => true
  | _ => false
  end.

Definition isna_date (d : dcell) : bool :=
  match d with
  | DTime _ => false
  | DNaT => true
  | DObj c => isna c
  end.

(** [str(x)], applied by [astype(str)] to every cell. *)
Definition astype_str (c : cell) : string :=
  match c with
  | VNone => "None"
  | VNaN => "nan"
  | VInt z => str_of_Z z
  | VStr s => s
  end.

Definition cell_eqb (a b : cell) : bool :=
  match a, b with
  | VNone, VNone => true
  | VNaN, VNaN => true
  | VInt x, VInt y => x =? y
  | VStr x, VStr y => String.eqb x y
  | _, _ => false
  end.

Definition dcell_eqb (a b : dcell) : bool :=
  match a, b with
  | DTime x, DTime y => x =? y
  | DNaT, DNaT => true
  | DObj x, DObj y => cell_eqb x y
  | _, _ => false
  end.

(** [out.dropna(subset=["Date","HomeTeam","AwayTeam","FTHG","FTAG"])]. *)
Definition complete (r : row) : bool :=
  negb (isna_date (Date r)) && negb (isna (HomeTeam r)) && negb (isna (AwayTeam r))
  && negb (isna (FTHG r)) && negb (isna (FTAG r)).

Definition dropna (df : frame) : frame := filter complete df.

(** [df.sort_values("Date")]: ascending, missing dates last.  Rows with
    equal dates keep their relative order (the order pandas leaves ties in
    is an implementation matter of its sorting routine; the model fixes the
    stable one). *)
Definition date_le (a b : dcell) : bool :=
  match a, b with
  | DTime x, DTime y => x <=? y
  | DTime _, _ => true
  | _, DTime _ => false
  | _, _ => true
  end.

Fixpoint insert_by_date (r : row) (l : frame) : frame :=
  match l with
  | [] => [r]
  | r' :: l' =>
      if date_le (Date r) (Date r') then r :: l
      else r' :: insert_by_date r l'
  end.

Fixpoint sort_values (df : frame) : frame :=
  match df with
  | [] => []
  | r :: l => insert_by_date r (sort_values l)
  end.

(** The identity key: the [subset] of [drop_duplicates]. *)
Definition same_key (a b : row) : bool :=
  cell_eqb (CompCode a) (CompCode b) && cell_eqb (Season a) (Season b)
  && dcell_eqb (Date a) (Date b)
  && cell_eqb (HomeTeam a) (HomeTeam b) && cell_eqb (AwayTeam a) (AwayTeam b)
  && cell_eqb (FTHG a) (FTHG b) && cell_eqb (FTAG a) (FTAG b).

(** [df.drop_duplicates(subset=..., keep="last")]: a row stays unless a
    later row has the same key; the survivors keep their order. *)
Fixpoint drop_duplicates (df : frame) : frame :=
  match df with
  | [] => []
  | r :: l =>
      if existsb (same_key r) l then drop_duplicates l
      else r :: drop_duplicates l
  end.

(** ** Remote requests, events and the world *)

Record request : Type := mkRequest {
  url : string;
  auth_token : string;
  params : list (string * string)
}.

Inductive event : Type :=
| EGet (r : request)
| ESleep (s : Z).

Record world : Type := mkWorld {
  environ_token : option string;   (* os.getenv("FOOTBALL_DATA_TOKEN") *)
  utcnow_date : Z;                 (* datetime.utcnow().date() *)
  trace : list event;              (* remote calls and sleeps, oldest first *)
  files : list (string * string);  (* path and content of the files *)
  session_state : option frame     (* st.session_state["fd_hist"] *)
}.

Definition M (A : Type) : Type := world -> result A * world.

Definition ret {A : Type} (a : A) : M A := fun w => (Ok a, w).

Definition bind {A B : Type} (m : M A) (k : A -> M B) : M B :=
  fun w =>
    match m w with
    | (Ok a, w') => k a w'
    | (Raise e, w') => (Raise e, w')
    end.

Definition lift {A : Type} (r : result A) : M A := fun w => (r, w).

Definition emit (e : event) : M unit :=
  fun w => (Ok tt, mkWorld (environ_token w) (utcnow_date w) (trace w ++ [e])%list
                           (files w) (session_state w)).

Declare Scope M_scope.
Delimit Scope M_scope with M.
Notation "x <- m ;; k" := (bind m (fun x => k))
  (at level 61, m at next level, right associativity) : M_scope.

Definition BASE_URL : string := "https://api.football-data.org/v4".

Fixpoint file_lookup (fs : list (string * string)) (path : string) : option string :=
  match fs with
  | [] => None
  | (p, c) :: fs' => if String.eqb p path then Some c else file_lookup fs' path
  end.

(** ** Concrete parsers

    Instances of the library parsers, used to run the model on concrete
    inputs: decimal integers, and timestamps written
    [YYYY-MM-DDTHH:MM:SSZ] as the remote service sends them. *)

Definition digit_value (c : ascii) : option Z :=
  let n := nat_of_ascii c in
  if (Nat.leb 48 n && Nat.leb n 57)%bool then Some (Z.of_nat n - 48) else None.

Fixpoint digits_value (s : string) (acc : Z) : option Z :=
  match s with
  | EmptyString => Some acc
  | String c s' =>
      match digit_value c with
      | Some d => digits_value s' (acc * 10 + d)
      | None => None
      end
  end.

Definition decimal_nat (s : string) : option Z :=
  match s with
  | EmptyString => None
  | _ => digits_value s 0
  end.

Definition decimal_int (s : string) : option Z :=
  match s with
  | String "-" s' => option_map Z.opp (decimal_nat s')
  | _ => decimal_nat s
  end.

Definition iso8601_utc (s : string) : option Z :=
  if (Nat.eqb (String.length s) 20
      && String.eqb (substring 4 1 s) "-" && String.eqb (substring 7 1 s) "-"
      && String.eqb (substring 10 1 s) "T" && String.eqb (substring 13 1 s) ":"
      && String.eqb (substring 16 1 s) ":" && String.eqb (substring 19 1 s) "Z")%bool
  then
    match decimal_nat (substring 0 4 s), decimal_nat (substring 5 2 s),
          decimal_nat (substring 8 2 s), decimal_nat (substring 11 2 s),
          decimal_nat (substring 14 2 s), decimal_nat (substring 17 2 s) with
    | Some y, Some m, Some d, Some hh, Some mm, Some ss =>
        let days := ymd2ord y m d - 719163 in
        let seconds := ((days * 24 + hh) * 60 + mm) * 60 + ss in
        Some (seconds * 1000000000)
    | _, _, _, _, _, _ => None
    end
  else None.

(** ** Sample data

    Concrete inputs on which the model is run: two matches, payloads as the
    service sends them, a service that answers and one that is down, and a
    world with a token and the date 2024-06-15. *)

Definition sample_row (competition : string) : row :=
  {| Date := DTime 1659726000000000000;
     HomeTeam := VStr "Crystal Palace";
     AwayTeam := VStr "Arsenal";
     FTHG := VInt 0;
     FTAG := VInt 2;
     Competition := VStr competition;
     CompCode := VStr "PL";
     Season := VInt 2022 |}.

Definition sample_row_later : row :=
  {| Date := DTime 1659794400000000000;
     HomeTeam := VStr "Fulham";
     AwayTeam := VStr "Liverpool";
     FTHG := VInt 2;
     FTAG := VInt 2;
     Competition := VStr "Premier League";
     CompCode := VStr "PL";
     Season := VInt 2022 |}.

(** A row without competition, and a row without home team. *)
Definition sample_row_no_competition : row :=
  {| Date := DObj (VStr "2022-08-05T19:00:00Z");
     HomeTeam := VStr " Crystal Palace ";
     AwayTeam := VStr "Arsenal";
     FTHG := VInt 0;
     FTAG := VStr "2";
     Competition := VNaN;
     CompCode := VNone;
     Season := VStr "2022" |}.

Definition sample_row_no_home : row :=
  {| Date := DObj (VStr "2022-08-06T14:00:00Z");
     HomeTeam := VNone;
     AwayTeam := VStr "Liverpool";
     FTHG := VInt 2;
     FTAG := VInt 2;
     Competition := VStr "Premier League";
     CompCode := VStr "PL";
     Season := VInt 2022 |}.

Definition sample_match (full_time : json) : json :=
  JDict [("status", JStr "FINISHED");
         ("utcDate", JStr "2022-08-05T19:00:00Z");
         ("homeTeam", JDict [("name", JStr "Crystal Palace")]);
         ("awayTeam", JDict [("name", JStr "Arsenal")]);
         ("competition", JDict [("name", JStr "Premier League"); ("code", JStr "PL")]);
         ("score", JDict [("fullTime", full_time)])].

(** A finished match with both scores, one with a score missing, and one
    whose full-time score is a pair instead of an object. *)
Definition sample_match_scored : json :=
  sample_match (JDict [("home", JInt 0); ("away", JInt 2)]).

Definition sample_match_unscored : json :=
  sample_match (JDict [("home", JInt 0); ("away", JNull)]).

Definition sample_match_pair : json :=
  sample_match (JList [JInt 0; JInt 2]).

Definition sample_payload (ms : list json) : json :=
  JDict [("count", JInt (Z.of_nat (List.length ms))); ("matches", JList ms)].

Definition sample_to_datetime_other (x : json) : result (option Z) :=
  Raise TypeError.

Definition sample_repr (x : json) : string := "<object>".

Definition service_up (r : request) : result json :=
  Ok (sample_payload [sample_match_scored]).

Definition service_down (r : request) : result json :=
  Raise HTTPError.

Definition sample_to_csv (df : frame) : string := "".

Definition sample_read_csv (content : string) : result frame := Ok [].

Definition sample_world : world :=
  {| environ_token := Some "secret";
     utcnow_date := ymd2ord 2024 6 15;
     trace := [];
     files := [];
     session_state := None |}.

(** Further sample data: a match that is not finished and whose score is
    not an object, a world whose token is blank, a world with a cache file,
    and a reader that returns two rows as a file gives them. *)
Definition sample_match_scheduled : json :=
  JDict [("status", JStr "SCHEDULED"); ("score", JStr "n/a")].

Definition sample_world_no_token : world :=
  {| environ_token := Some "  ";
     utcnow_date := ymd2ord 2024 6 15;
     trace := [];
     files := [];
     session_state := None |}.

Definition sample_world_cached : world :=
  {| environ_token := Some "secret";
     utcnow_date := ymd2ord 2024 6 15;
     trace := [];
     files := [("fd_history.csv", "Date,HomeTeam,...")];
     session_state := None |}.

Definition sample_read_rows (content : string) : result frame :=
  Ok [sample_row_later; sample_row_no_competition].

(** ** The program *)

Section Engine.

#[local] Set Default Proof Using "Type".

(** What the libraries do with a string or an unusual value. *)
Variable parse_datetime : string -> option Z.
  (* pd.to_datetime(s, errors="coerce") on a string: None is NaT *)
Variable parse_datetime_utc : string -> option Z.
  (* pd.to_datetime(s, utc=True, errors="coerce").tz_convert(None) *)
Variable to_datetime_other : json -> result (option Z).
  (* the same call on a value that is neither None nor a string *)
Variable int_of_string : string -> option Z.
  (* int(s): None is a ValueError *)
Variable numeric_of_string : string -> option Z.
  (* pd.to_numeric(s, errors="coerce") as an integer: None is NaN *)
Variable py_repr : json -> string.
  (* str(x) of a bool, list or dict *)

(** The remote service: [requests.get], [raise_for_status] and [r.json()]. *)
Variable http_get : request -> result json.

(** The CSV codec of pandas: [DataFrame.to_csv(index=False)] and
    [pd.read_csv]. *)
Variable to_csv : frame -> string.
Variable read_csv : string -> result frame.

(** *** Normalisation *)

(** [int(x)]. *)
Definition py_int (x : json) : result Z :=
  match x with
  | JInt z => Ok z
  | JBool b => Ok (if b then 1 else 0)
  | JStr s =>
      match int_of_string s with
      | Some z => Ok z
      | None => Raise ValueError
      end
  | _ => Raise TypeError
  end.

(** The cell a JSON value is stored as.  A bool, list or dict stays the
    object it is in pandas; the only operations the program applies to such
    a cell are [isna] (false) and [astype(str)] (its rendering), which the
    rendering itself answers the same way. *)
Definition cell_of_json (x : json) : cell :=
  match x with
  | JNull => VNone
  | JInt z => VInt z
  | JStr s => VStr s
  | _ => VStr (py_repr x)
  end.

(** [pd.to_datetime(x, utc=True, errors="coerce")], tested with [pd.isna]
    and made naive with [tz_convert(None)]: [None] is [NaT]. *)
Definition to_datetime_utc (x : json) : result (option Z) :=
  match x with
  | JNull => Ok None
  | JStr s => Ok (parse_datetime_utc s)
  | _ => to_datetime_other x
  end.

(** The body of the loop of [_normalize_payload] for one entry [m]:
    [Ok None] is [continue], [Ok (Some r)] is [rows.append(r)]. *)
Definition normalize_match (season_hint : option Z) (m : json) : result (option row) :=
  status <- py_get m "status" ;;
  if py_ne_str status "FINISHED" then Ok None else
  score <- py_get m "score" ;;
  full <- py_get (or_empty score) "fullTime" ;;
  let ft := or_empty full in
  home <- py_get ft "home" ;;
  away <- py_get ft "away" ;;
  if is_none home || is_none away then Ok None else
  utcDate <- py_get m "utcDate" ;;
  dt <- to_datetime_utc utcDate ;;
  match dt with
  | None => Ok None
  | Some t =>
      homeTeam <- py_get m "homeTeam" ;;
      home_name <- py_get (or_empty homeTeam) "name" ;;
      awayTeam <- py_get m "awayTeam" ;;
      away_name <- py_get (or_empty awayTeam) "name" ;;
      fthg <- py_int home ;;
      ftag <- py_int away ;;
      competition <- py_get m "competition" ;;
      comp_name <- py_get (or_empty competition) "name" ;;
      comp_code <- py_get (or_empty competition) "code" ;;
      Ok (Some {|
        Date := DTime t;
        HomeTeam := cell_of_json home_name;
        AwayTeam := cell_of_json away_name;
        FTHG := VInt fthg;
        FTAG := VInt ftag;
        Competition := cell_of_json comp_name;
        CompCode := cell_of_json comp_code;
        Season := VInt (match season_hint with
                        | Some s => s
                        | None => timestamp_year t
                        end)
      |})
  end.

Fixpoint normalize_matches (season_hint : option Z) (ms : list json) : result frame :=
  match ms with
  | [] => Ok []
  | m :: ms' =>
      r <- normalize_match season_hint m ;;
      rows <- normalize_matches season_hint ms' ;;
      Ok (match r with Some x => x :: rows | None => rows end)
  end.

Definition _normalize_payload (payload : json) (season_hint : option Z) : result frame :=
  matches <- py_get_default payload "matches" (JList []) ;;
  ms <- py_iter matches ;;
  normalize_matches season_hint ms.

(** *** Standardisation *)

(** [pd.to_datetime(column, errors="coerce")] on one cell: an integer is a
    number of nanoseconds since the epoch. *)
Definition to_datetime (d : dcell) : dcell :=
  match d with
  | DTime t => DTime t
  | DNaT => DNaT
  | DObj VNone | DObj VNaN => DNaT
  | DObj (VInt n) => DTime n
  | DObj (VStr s) =>
      match parse_datetime s with
      | Some t => DTime t
      | None => DNaT
      end
  end.

(** [astype(int)] on one cell. *)
Definition astype_int (c : cell) : result cell :=
  match c with
  | VInt z => Ok (VInt z)
  | VStr s =>
      match int_of_string s with
      | Some z => Ok (VInt z)
      | None => Raise ValueError
      end
  | VNone => Raise TypeError
  | VNaN => Raise ValueError
  end.

(** [astype(str).str.strip()] on one cell. *)
Definition astype_str_strip (c : cell) : cell :=
  VStr (strip (astype_str c)).

(** [pd.to_numeric(column, errors="coerce").fillna(-1).astype(int)] on one
    cell. *)
Definition to_numeric_fillna_int (c : cell) : cell :=
  match c with
  | VInt z => VInt z
  | VStr s =>
      match numeric_of_string s with
      | Some z => VInt z
      | None => VInt (-1)
      end
  | VNone | VNaN => VInt (-1)
  end.

Definition _standardize (df : option frame) : result frame :=
  match df with
  | None => Ok []
  | Some [] => Ok []
  | Some df =>
      let out := map (fun r => set_Date (to_datetime (Date r)) r) df in
      let out := dropna out in
      out <- mapM (fun r => v <- astype_int (FTHG r) ;; Ok (set_FTHG v r)) out ;;
      out <- mapM (fun r => v <- astype_int (FTAG r) ;; Ok (set_FTAG v r)) out ;;
      let out := map (fun r => set_HomeTeam (astype_str_strip (HomeTeam r)) r) out in
      let out := map (fun r => set_AwayTeam (astype_str_strip (AwayTeam r)) r) out in
      let out := map (fun r => set_CompCode (astype_str_strip (CompCode r)) r) out in
      let out := map (fun r => set_Competition (astype_str_strip (Competition r)) r) out in
      let out := map (fun r => set_Season (to_numeric_fillna_int (Season r)) r) out in
      Ok (sort_values out)
  end.

(** *** Merge *)

Definition merge_dedup (existing incoming : option frame) : result frame :=
  existing <- _standardize existing ;;
  incoming <- _standardize incoming ;;
  let combined := (existing ++ incoming)%list in
  let combined := drop_duplicates combined in
  Ok (sort_values combined).

(** The set of [(CompCode, Season)] pairs, as the list of its members. *)
Definition existing_comp_seasons (df : option frame) : result (list (cell * cell)) :=
  df <- _standardize df ;;
  Ok (map (fun r => (CompCode r, Season r)) df).

(** [(code, season) in have]. *)
Definition in_have (code : string) (season : Z) (have : list (cell * cell)) : bool :=
  existsb (fun p => cell_eqb (fst p) (VStr code) && cell_eqb (snd p) (VInt season)) have.

(** *** Remote calls *)

Local Open Scope M_scope.

Definition _get_fd_token : M string :=
  fun w =>
    let token := strip (match environ_token w with Some t => t | None => "" end) in
    if String.eqb token "" then (Raise RuntimeError, w) else (Ok token, w).

(** [requests.get(...)], [r.raise_for_status()], [r.json()]. *)
Definition requests_get (r : request) : M json :=
  _ <- emit (EGet r) ;;
  lift (http_get r).

Definition fetch_competition_matches (code : string) (season : Z) : M json :=
  token <- _get_fd_token ;;
  requests_get {| url := BASE_URL ++ "/competitions/" ++ code ++ "/matches";
                  auth_token := token;
                  params := [("season", str_of_Z season)] |}.

Definition fetch_matches_by_date (date_from date_to : string)
    (competitions : option string) : M json :=
  token <- _get_fd_token ;;
  let params := [("dateFrom", date_from); ("dateTo", date_to); ("status", "FINISHED")] in
  let params :=
    match competitions with
    | Some c => if String.eqb c "" then params else (params ++ [("competitions", c)])%list
    | None => params
    end in
  requests_get {| url := BASE_URL ++ "/matches";
                  auth_token := token;
                  params := params |}.

(** *** Incremental ingestion *)

(** The inner loop, over the seasons of one competition. *)
Fixpoint ingest_seasons (have : list (cell * cell)) (sleep_s : Z) (code : string)
    (seasons : list Z) (parts : list frame) : M (list frame) :=
  match seasons with
  | [] => ret parts
  | season :: seasons' =>
      if in_have code season have then
        ingest_seasons have sleep_s code seasons' parts
      else
        payload <- fetch_competition_matches code season ;;
        part <- lift (_normalize_payload payload (Some season)) ;;
        let parts := match part with [] => parts | _ => (parts ++ [part])%list end in
        _ <- emit (ESleep sleep_s) ;;
        ingest_seasons have sleep_s code seasons' parts
  end.

(** The outer loop, over the competitions. *)
Fixpoint ingest_codes (have : list (cell * cell)) (sleep_s : Z) (codes : list string)
    (seasons : list Z) (parts : list frame) : M (list frame) :=
  match codes with
  | [] => ret parts
  | code :: codes' =>
      parts <- ingest_seasons have sleep_s code seasons parts ;;
      ingest_codes have sleep_s codes' seasons parts
  end.

Definition ingest_missing_seasons (df_hist : option frame) (codes : list string)
    (seasons : list Z) (sleep_s : Z) : M frame :=
  have <- lift (existing_comp_seasons df_hist) ;;
  parts <- ingest_codes have sleep_s codes seasons [] ;;
  let incoming := match parts with [] => None | _ => Some (List.concat parts) end in
  lift (merge_dedup df_hist incoming).

(** *** Refresh *)

Definition refresh_last_7_days (df_hist : option frame) (codes : list string) : M frame :=
  date_to <- (fun w => (Ok (utcnow_date w), w)) ;;
  date_from <- lift (date_sub_days date_to 7) ;;
  payload <- fetch_matches_by_date (date_str date_from) (date_str date_to)
               (Some (join "," codes)) ;;
  incoming <- lift (_normalize_payload payload None) ;;
  lift (merge_dedup df_hist (Some incoming)).

(** *** Cache *)

Definition load_cache (path : string) : M (option frame) :=
  fun w =>
    match file_lookup (files w) path with
    | None => (Ok None, w)
    | Some content =>
        ((df <- read_csv content ;; df <- _standardize (Some df) ;; Ok (Some df))%result, w)
    end.

Definition save_cache (df : frame) (path : string) : M unit :=
  fun w =>
    match _standardize (Some df) with
    | Ok out =>
        (Ok tt, mkWorld (environ_token w) (utcnow_date w) (trace w)
                        ((path, to_csv out) :: files w) (session_state w))
    | Raise e => (Raise e, w)
    end.

(** *** The three actions of the control surface *)

Definition set_session (df : frame) : M unit :=
  fun w => (Ok tt, mkWorld (environ_token w) (utcnow_date w) (trace w)
                           (files w) (Some df)).

(** [st.session_state.get("fd_hist", default)]. *)
Definition session_get (default : option frame) : M (option frame) :=
  fun w => (Ok (match session_state w with Some df => Some df | None => default end), w).

Definition on_load_cache (cache_path : string) : M unit :=
  df <- load_cache cache_path ;;
  match df with
  | Some df => set_session df
  | None => ret tt
  end.

Definition on_ingest_missing_seasons (cache_path : string) (selected_codes : list string)
    (seasons : list Z) (sleep_s : Z) : M unit :=
  cached <- load_cache cache_path ;;
  df <- session_get cached ;;
  df <- ingest_missing_seasons df selected_codes seasons sleep_s ;;
  _ <- set_session df ;;
  save_cache df cache_path.

Definition on_refresh_last_7_days (cache_path : string)
    (selected_codes : list string) : M unit :=
  cached <- load_cache cache_path ;;
  df <- session_get cached ;;
  df <- refresh_last_7_days df selected_codes ;;
  _ <- set_session df ;;
  save_cache df cache_path.

Local Close Scope M_scope.

(** ** Predicates used in the statements *)

(** A row in standard form: what [_standardize] leaves in each column. *)
Definition is_stripped (c : cell) : bool :=
  match c with
  | VStr s => String.eqb (strip s) s
  | _ => false
  end.

Definition is_int (c : cell) : bool :=
  match c with
  | VInt _ => true
  | _ => false
  end.

Definition is_time (d : dcell) : bool :=
  match d with
  | DTime _ => true
  | _ => false
  end.

Definition standard_row (r : row) : bool :=
  is_time (Date r) && is_stripped (HomeTeam r) && is_stripped (AwayTeam r)
  && is_int (FTHG r) && is_int (FTAG r)
  && is_stripped (Competition r) && is_stripped (CompCode r) && is_int (Season r).

(** Non-decreasing dates. *)
Fixpoint sorted_by_date (df : frame) : bool :=
  match df with
  | [] => true
  | r :: l =>
      match l with
      | [] => true
      | r' :: _ => date_le (Date r) (Date r')
      end && sorted_by_date l
  end.

(** No two rows share an identity key. *)
Fixpoint no_duplicate_keys (df : frame) : bool :=
  match df with
  | [] => true
  | r :: l => negb (existsb (same_key r) l) && no_duplicate_keys l
  end.

(** A dataset as the data model describes it: standard rows, sorted by
    date, one row per identity key. *)
Definition is_dataset (df : frame) : bool :=
  forallb standard_row df && sorted_by_date df && no_duplicate_keys df.

(** The rows [_standardize] does not drop: the date converts to a
    timestamp and neither team nor goal count is missing. *)
Definition retained (r : row) : bool :=
  negb (isna_date (to_datetime (Date r)))
  && negb (isna (HomeTeam r)) && negb (isna (AwayTeam r))
  && negb (isna (FTHG r)) && negb (isna (FTAG r)).

(** The member [k] of an entry, [None] when it is absent. *)
Definition field (m : json) (k : string) : json :=
  match m with
  | JDict d => match dict_get d k with Some v => v | None => JNull end
  | _ => JNull
  end.

(** The three conditions of the normaliser on an entry. *)
Definition is_finished (m : json) : bool :=
  match field m "status" with
  | JStr s => String.eqb s "FINISHED"
  | _ => false
  end.

Definition full_time (m : json) : json := field (field m "score") "fullTime".

Definition scores_present (m : json) : bool :=
  negb (is_none (field (full_time m) "home"))
  && negb (is_none (field (full_time m) "away")).

Definition timestamp_parses (m : json) : bool :=
  match to_datetime_utc (field m "utcDate") with
  | Ok (Some _) => true
  | _ => false
  end.

(** The shape of a match entry of the remote service: nested members are
    objects or null, goal counts are integers or null, the timestamp is a
    string or null. *)
Definition null_or_dict (x : json) : bool :=
  match x with
  | JNull | JDict _ => true
  | _ => false
  end.

Definition null_or_int (x : json) : bool :=
  match x with
  | JNull | JInt _ => true
  | _ => false
  end.

Definition null_or_str (x : json) : bool :=
  match x with
  | JNull | JStr _ => true
  | _ => false
  end.

Definition api_entry (m : json) : bool :=
  match m with
  | JDict _ =>
      null_or_dict (field m "score") && null_or_dict (full_time m)
      && null_or_int (field (full_time m) "home")
      && null_or_int (field (full_time m) "away")
      && null_or_str (field m "utcDate")
      && null_or_dict (field m "homeTeam") && null_or_dict (field m "awayTeam")
      && null_or_dict (field m "competition")
  | _ => false
  end.

(** The request [fetch_matches_by_date] sends for a window and a list of
    competition codes. *)
Definition has_param (r : request) (k v : string) : Prop := In (k, v) (params r).

(** The calls recorded in a trace. *)
Fixpoint remote_calls (t : list event) : list request :=
  match t with
  | [] => []
  | EGet r :: t' => r :: remote_calls t'
  | ESleep _ :: t' => remote_calls t'
  end.

(** The record the normaliser builds for an entry [m] of the service's
    shape whose timestamp is [t]. *)
Definition emitted_row (season_hint : option Z) (m : json) (t : Z) : row :=
  {| Date := DTime t;
     HomeTeam := cell_of_json (field (field m "homeTeam") "name");
     AwayTeam := cell_of_json (field (field m "awayTeam") "name");
     FTHG := cell_of_json (field (full_time m) "home");
     FTAG := cell_of_json (field (full_time m) "away");
     Competition := cell_of_json (field (field m "competition") "name");
     CompCode := cell_of_json (field (field m "competition") "code");
     Season := VInt (match season_hint with
                     | Some s => s
                     | None => timestamp_year t
                     end) |}.

(** The three conditions together. *)
Definition passes (m : json) : bool :=
  is_finished m && scores_present m && timestamp_parses m.

(** The query of the refresher for a token, a current date and a list of
    competition codes, without the competition restriction. *)
Definition window_params (today : Z) : list (string * string) :=
  [("dateFrom", date_str (today - 7)); ("dateTo", date_str today);
   ("status", "FINISHED")].

(** What [_standardize] makes of one row it keeps: the column operations
    of the function, read along the row. *)
Definition standardize_row (r : row) : result row :=
  fthg <- astype_int (FTHG r) ;;
  ftag <- astype_int (FTAG r) ;;
  Ok {| Date := to_datetime (Date r);
        HomeTeam := astype_str_strip (HomeTeam r);
        AwayTeam := astype_str_strip (AwayTeam r);
        FTHG := fthg;
        FTAG := ftag;
        Competition := astype_str_strip (Competition r);
        CompCode := astype_str_strip (CompCode r);
        Season := to_numeric_fillna_int (Season r) |}.

(** The fetch of one (competition, season) pair raises. *)
Definition fetch_fails (w : world) (code : string) (season : Z) : Prop :=
  exists e, fst (fetch_competition_matches code season w) = Raise e.

(** Two worlds that differ at most in their trace. *)
Definition same_store (w w' : world) : Prop :=
  environ_token w' = environ_token w /\ utcnow_date w' = utcnow_date w
  /\ files w' = files w /\ session_state w' = session_state w.

(** The dataset an action of the control surface starts from. *)
Definition session_or (w : world) (cached : option frame) : option frame :=
  match session_state w with
  | Some df => Some df
  | None => cached
  end.

(** ** Further notions used in the statements *)

(** The frame holds a row with the identity key of [r]. *)
Definition has_key (df : frame) (r : row) : bool := existsb (same_key r) df.

(** A computation that returns. *)
Definition is_ok {A : Type} (r : result A) : Prop := exists a, r = Ok a.

(** The value of the token variable after [.strip()], an absent variable
    reading as the empty string. *)
Definition stripped_token (w : world) : string :=
  strip (match environ_token w with Some t => t | None => "" end).

(** The request of [fetch_competition_matches] for a pair. *)
Definition competition_request (token : string) (p : string * Z) : request :=
  {| url := BASE_URL ++ "/competitions/" ++ fst p ++ "/matches";
     auth_token := token;
     params := [("season", str_of_Z (snd p))] |}.

(** The request of [fetch_matches_by_date] as the refresher calls it. *)
Definition matches_request (token : string) (today : Z) (codes : list string) : request :=
  {| url := BASE_URL ++ "/matches";
     auth_token := token;
     params := if String.eqb (join "," codes) ""
               then window_params today
               else (window_params today ++ [("competitions", join "," codes)])%list |}.

(** The requested pairs the dataset lacks, in the order the two loops of
    [ingest_missing_seasons] reach them: codes outside, seasons inside. *)
Definition missing_pairs (have : list (cell * cell)) (codes : list string)
    (seasons : list Z) : list (string * Z) :=
  filter (fun p => negb (in_have (fst p) (snd p) have)) (list_prod codes seasons).

(** What one round of the loop obtains for a pair: the answer of the
    service, normalised with the season hinted. *)
Definition fetch_part (token : string) (p : string * Z) : result frame :=
  payload <- http_get (competition_request token p) ;;
  _normalize_payload payload (Some (snd p)).

(** The events of one round: the call, then the sleep. *)
Definition round_events (token : string) (sleep_s : Z) (p : string * Z) : list event :=
  [EGet (competition_request token p); ESleep sleep_s].

(** The parts the loop keeps, and the incoming collection made of them. *)
Definition nonempty_parts (ps : list frame) : list frame :=
  filter (fun part => match part with [] => false | _ => true end) ps.

Definition incoming_of (parts : list frame) : option frame :=
  match parts with
  | [] => None
  | _ => Some (List.concat parts)
  end.

(** The world with further events in its trace. *)
Definition with_trace (w : world) (t : list event) : world :=
  mkWorld (environ_token w) (utcnow_date w) (trace w ++ t)%list
          (files w) (session_state w).

(** The column operations of [_standardize] on one row: the two goal
    columns, which may raise, and the columns that are cleaned. *)
Definition home_goals_column (r : row) : result row :=
  v <- astype_int (FTHG r) ;; Ok (set_FTHG v r).

Definition away_goals_column (r : row) : result row :=
  v <- astype_int (FTAG r) ;; Ok (set_FTAG v r).

Definition clean_columns (r : row) : row :=
  let r := set_HomeTeam (astype_str_strip (HomeTeam r)) r in
  let r := set_AwayTeam (astype_str_strip (AwayTeam r)) r in
  let r := set_CompCode (astype_str_strip (CompCode r)) r in
  let r := set_Competition (astype_str_strip (Competition r)) r in
  set_Season (to_numeric_fillna_int (Season r)) r.

(** The season the normaliser gives a record of timestamp [t]. *)
Definition season_of (season_hint : option Z) (t : Z) : Z :=
  match season_hint with
  | Some s => s
  | None => timestamp_year t
  end.

(** * Properties *)

(** ** Column operations *)

Lemma mapM_fixed {A : Type} (f : A -> result A) (l : list A) :
  (forall x, In x l -> f x = Ok x) -> mapM f l = Ok l.
Proof.
  induction l as [|x l IH]; intros H; simpl.
  - reflexivity.
  - rewrite (H x (or_introl eq_refl)). simpl.
    rewrite IH by (intros y Hy; apply H; right; exact Hy).
    reflexivity.
Qed.

Lemma map_fixed {A : Type} (f : A -> A) (l : list A) :
  (forall x, In x l -> f x = x) -> map f l = l.
Proof.
  induction l as [|x l IH]; intros H; simpl.
  - reflexivity.
  - rewrite (H x (or_introl eq_refl)), IH; [reflexivity|].
    intros y Hy. apply H. right. exact Hy.
Qed.

Lemma mapM_Forall2 {A B : Type} (f : A -> result B) (l : list A) (l' : list B) :
  mapM f l = Ok l' -> Forall2 (fun x y => f x = Ok y) l l'.
Proof.
  revert l'. induction l as [|x l IH]; intros l' H; simpl in H.
  - injection H as <-. constructor.
  - destruct (f x) as [y|e] eqn:Hx; simpl in H; [|discriminate].
    destruct (mapM f l) as [ys|e] eqn:Hl; simpl in H; [|discriminate].
    injection H as <-. constructor; [exact Hx | apply IH; reflexivity].
Qed.

Lemma filter_fixed {A : Type} (p : A -> bool) (l : list A) :
  (forall x, In x l -> p x = true) -> filter p l = l.
Proof.
  induction l as [|x l IH]; intros H; simpl.
  - reflexivity.
  - rewrite (H x (or_introl eq_refl)), IH; [reflexivity|].
    intros y Hy. apply H. right. exact Hy.
Qed.

(** ** Stripping *)

Lemma lstrip_head (s : string) :
  lstrip s = EmptyString \/
  exists c t, lstrip s = String c t /\ is_space c = false.
Proof.
  induction s as [|c s IH]; simpl.
  - left. reflexivity.
  - destruct (is_space c) eqn:Hc.
    + exact IH.
    + right. exists c, s. split; [reflexivity | exact Hc].
Qed.

Lemma rstrip_idem (s : string) : rstrip (rstrip s) = rstrip s.
Proof.
  induction s as [|c s IH]; simpl.
  - reflexivity.
  - destruct (rstrip s) as [|c' t] eqn:Hr.
    + destruct (is_space c) eqn:Hc; simpl; [reflexivity|].
      rewrite Hc. reflexivity.
    + simpl. simpl in IH.
      destruct (rstrip t) as [|c'' t'] eqn:Hrt.
      * destruct (is_space c') eqn:Hc'; [discriminate|].
        injection IH as ->. reflexivity.
      * rewrite IH. reflexivity.
Qed.

Lemma rstrip_head (c : ascii) (t : string) :
  is_space c = false -> exists t', rstrip (String c t) = String c t'.
Proof.
  intros Hc. simpl. destruct (rstrip t) as [|c' t'].
  - rewrite Hc. exists EmptyString. reflexivity.
  - exists (String c' t'). reflexivity.
Qed.

Lemma strip_idem (s : string) : strip (strip s) = strip s.
Proof.
  unfold strip.
  destruct (lstrip_head s) as [-> | (c & t & -> & Hc)].
  - reflexivity.
  - destruct (rstrip_head c t Hc) as [t' Ht']. rewrite Ht'.
    simpl lstrip. rewrite Hc. rewrite <- Ht'. apply rstrip_idem.
Qed.

(** ** Equality of cells and identity keys *)

Lemma cell_eqb_eq (a b : cell) : cell_eqb a b = true <-> a = b.
Proof.
  destruct a, b; simpl; split; intros H;
    try reflexivity; try discriminate.
  - apply Z.eqb_eq in H. congruence.
  - injection H as ->. apply Z.eqb_refl.
  - apply String.eqb_eq in H. congruence.
  - injection H as ->. apply String.eqb_refl.
Qed.

Lemma dcell_eqb_eq (a b : dcell) : dcell_eqb a b = true <-> a = b.
Proof.
  destruct a, b; simpl; split; intros H;
    try reflexivity; try discriminate.
  - apply Z.eqb_eq in H. congruence.
  - injection H as ->. apply Z.eqb_refl.
  - apply cell_eqb_eq in H. congruence.
  - injection H as ->. apply cell_eqb_eq. reflexivity.
Qed.

Lemma same_key_spec (a b : row) :
  same_key a b = true <->
  CompCode a = CompCode b /\ Season a = Season b /\ Date a = Date b
  /\ HomeTeam a = HomeTeam b /\ AwayTeam a = AwayTeam b
  /\ FTHG a = FTHG b /\ FTAG a = FTAG b.
Proof.
  unfold same_key. rewrite !andb_true_iff, !cell_eqb_eq, dcell_eqb_eq. tauto.
Qed.

Lemma same_key_refl (a : row) : same_key a a = true.
Proof. apply same_key_spec. repeat split. Qed.

Lemma same_key_sym (a b : row) : same_key a b = true -> same_key b a = true.
Proof. rewrite !same_key_spec. intuition congruence. Qed.

Lemma same_key_trans (a b c : row) :
  same_key a b = true -> same_key b c = true -> same_key a c = true.
Proof. rewrite !same_key_spec. intuition congruence. Qed.

Lemma same_key_class (a b c : row) :
  same_key a b = true -> same_key a c = same_key b c.
Proof.
  intros Hab. destruct (same_key b c) eqn:Hbc.
  - exact (same_key_trans _ _ _ Hab Hbc).
  - destruct (same_key a c) eqn:Hac; [|reflexivity].
    rewrite <- Hbc. symmetry.
    exact (same_key_trans _ _ _ (same_key_sym _ _ Hab) Hac).
Qed.

(** ** Sorting by date *)

Lemma date_le_total (a b : dcell) : date_le a b = false -> date_le b a = true.
Proof.
  destruct a, b; simpl; intros H; try reflexivity; try discriminate.
  apply Z.leb_le. apply Z.leb_gt in H. lia.
Qed.

Lemma insert_by_date_perm (r : row) (l : frame) :
  Permutation (insert_by_date r l) (r :: l).
Proof.
  induction l as [|r' l IH]; simpl.
  - apply Permutation_refl.
  - destruct (date_le (Date r) (Date r')).
    + apply Permutation_refl.
    + eapply perm_trans; [apply perm_skip, IH | apply perm_swap].
Qed.

Lemma sort_values_perm (l : frame) : Permutation (sort_values l) l.
Proof.
  induction l as [|r l IH]; simpl.
  - constructor.
  - eapply perm_trans; [apply insert_by_date_perm | apply perm_skip, IH].
Qed.

Lemma insert_by_date_sorted (r : row) (l : frame) :
  sorted_by_date l = true -> sorted_by_date (insert_by_date r l) = true.
Proof.
  induction l as [|r' l IH]; intros Hs.
  - reflexivity.
  - simpl insert_by_date. destruct (date_le (Date r) (Date r')) eqn:Hle.
    + change (date_le (Date r) (Date r') && sorted_by_date (r' :: l) = true).
      rewrite Hle, Hs. reflexivity.
    + simpl in Hs. apply andb_true_iff in Hs. destruct Hs as [Hhd Htl].
      specialize (IH Htl).
      destruct l as [|r'' l'].
      * simpl. rewrite (date_le_total _ _ Hle). reflexivity.
      * simpl insert_by_date in *.
        destruct (date_le (Date r) (Date r'')) eqn:Hle'.
        -- change (date_le (Date r') (Date r)
                   && sorted_by_date (r :: r'' :: l') = true).
           rewrite (date_le_total _ _ Hle), IH. reflexivity.
        -- change (date_le (Date r') (Date r'')
                   && sorted_by_date (r'' :: insert_by_date r l') = true).
           rewrite Hhd, IH. reflexivity.
Qed.

Lemma sort_values_sorted (l : frame) : sorted_by_date (sort_values l) = true.
Proof.
  induction l as [|r l IH]; simpl.
  - reflexivity.
  - apply insert_by_date_sorted, IH.
Qed.

Lemma sort_values_fixed (l : frame) :
  sorted_by_date l = true -> sort_values l = l.
Proof.
  induction l as [|r l IH]; intros Hs.
  - reflexivity.
  - simpl in Hs. apply andb_true_iff in Hs. destruct Hs as [Hhd Htl].
    simpl. rewrite (IH Htl). destruct l as [|r' l'].
    + reflexivity.
    + simpl. rewrite Hhd. reflexivity.
Qed.

Lemma sort_values_forallb (p : row -> bool) (l : frame) :
  forallb p l = true -> forallb p (sort_values l) = true.
Proof.
  rewrite !forallb_forall. intros H x Hx. apply H.
  exact (Permutation_in _ (sort_values_perm l) Hx).
Qed.

Lemma existsb_perm (p : row -> bool) (l l' : frame) :
  Permutation l l' -> existsb p l = existsb p l'.
Proof.
  intros HP. destruct (existsb p l') eqn:H'.
  - apply existsb_exists in H'. destruct H' as (x & Hx & Hp).
    apply existsb_exists. exists x. split; [|exact Hp].
    exact (Permutation_in _ (Permutation_sym HP) Hx).
  - destruct (existsb p l) eqn:H; [|reflexivity].
    apply existsb_exists in H. destruct H as (x & Hx & Hp).
    rewrite <- H'. symmetry. apply existsb_exists. exists x.
    split; [exact (Permutation_in _ HP Hx) | exact Hp].
Qed.

Lemma same_key_existsb_sym (r r' : row) :
  same_key r r' = same_key r' r.
Proof.
  destruct (same_key r' r) eqn:H.
  - apply same_key_sym, H.
  - destruct (same_key r r') eqn:H'; [|reflexivity].
    rewrite (same_key_sym _ _ H') in H. discriminate.
Qed.

Lemma insert_by_date_no_dup (r : row) (l : frame) :
  no_duplicate_keys (r :: l) = true ->
  no_duplicate_keys (insert_by_date r l) = true.
Proof.
  induction l as [|r' l IH]; intros H.
  - exact H.
  - simpl insert_by_date. destruct (date_le (Date r) (Date r')); [exact H|].
    simpl in H. rewrite !andb_true_iff, !negb_true_iff, orb_false_iff in H.
    destruct H as [[Hrr' Hrl] [Hr'l Hl]].
    simpl. rewrite (existsb_perm _ _ _ (insert_by_date_perm r l)).
    simpl. rewrite <- same_key_existsb_sym, Hrr', Hr'l. simpl.
    apply IH. simpl. rewrite Hrl, Hl. reflexivity.
Qed.

Lemma sort_values_no_dup (l : frame) :
  no_duplicate_keys l = true -> no_duplicate_keys (sort_values l) = true.
Proof.
  induction l as [|r l IH]; intros H.
  - reflexivity.
  - simpl. apply insert_by_date_no_dup.
    simpl in H. apply andb_true_iff in H. destruct H as [Hr Hl].
    simpl. rewrite (existsb_perm _ _ _ (sort_values_perm l)), Hr.
    apply IH, Hl.
Qed.

(** ** Removing duplicate keys *)

Lemma drop_duplicates_In (x : row) (l : frame) :
  In x (drop_duplicates l) -> In x l.
Proof.
  induction l as [|r l IH]; simpl; [exact (fun H => H)|].
  destruct (existsb (same_key r) l); simpl.
  - intros H. right. exact (IH H).
  - intros [H|H]; [left; exact H | right; exact (IH H)].
Qed.

Lemma drop_duplicates_fixed (l : frame) :
  no_duplicate_keys l = true -> drop_duplicates l = l.
Proof.
  induction l as [|r l IH]; intros H.
  - reflexivity.
  - simpl in *. apply andb_true_iff in H. destruct H as [Hr Hl].
    apply negb_true_iff in Hr. rewrite Hr, (IH Hl). reflexivity.
Qed.

Lemma drop_duplicates_no_dup (l : frame) :
  no_duplicate_keys (drop_duplicates l) = true.
Proof.
  induction l as [|r l IH]; simpl.
  - reflexivity.
  - destruct (existsb (same_key r) l) eqn:Hr; [exact IH|].
    simpl. rewrite IH, andb_true_r. apply negb_true_iff.
    destruct (existsb (same_key r) (drop_duplicates l)) eqn:H; [|reflexivity].
    apply existsb_exists in H. destruct H as (x & Hx & Hk).
    rewrite <- Hr. symmetry. apply existsb_exists. exists x.
    split; [apply drop_duplicates_In, Hx | exact Hk].
Qed.

Lemma filter_nil_iff (p : row -> bool) (l : frame) :
  filter p l = [] <-> existsb p l = false.
Proof.
  induction l as [|x l IH]; simpl.
  - tauto.
  - destruct (p x); simpl; [split; discriminate | exact IH].
Qed.

Lemma existsb_same_key_class (a b : row) (l : frame) :
  same_key a b = true -> existsb (same_key a) l = existsb (same_key b) l.
Proof.
  intros Hab. induction l as [|x l IH]; simpl.
  - reflexivity.
  - rewrite (same_key_class _ _ x Hab), IH. reflexivity.
Qed.

Lemma filter_drop_duplicates_nil (p : row -> bool) (l : frame) :
  filter p l = [] -> filter p (drop_duplicates l) = [].
Proof.
  intros H. apply filter_nil_iff. apply filter_nil_iff in H.
  destruct (existsb p (drop_duplicates l)) eqn:E; [|reflexivity].
  apply existsb_exists in E. destruct E as (x & Hx & Hp).
  rewrite <- H. symmetry. apply existsb_exists. exists x.
  split; [apply drop_duplicates_In, Hx | exact Hp].
Qed.

Lemma last_cons_nonempty (x d : row) (l : frame) :
  l <> [] -> last (x :: l) d = last l d.
Proof. destruct l; [contradiction | reflexivity]. Qed.

(** Among the rows of one key, [drop_duplicates] leaves the last one. *)
Lemma drop_duplicates_keeps_last (r : row) (l : frame) :
  filter (same_key r) l <> [] ->
  filter (same_key r) (drop_duplicates l) = [last (filter (same_key r) l) r].
Proof.
  induction l as [|x l IH]; intros Hne.
  - contradiction Hne. reflexivity.
  - simpl drop_duplicates. simpl filter in *.
    destruct (existsb (same_key x) l) eqn:Hdup.
    + destruct (same_key r x) eqn:Hrx.
      * assert (Hl : filter (same_key r) l <> []).
        { intros Hnil. apply filter_nil_iff in Hnil.
          rewrite (existsb_same_key_class _ _ l Hrx) in Hnil. congruence. }
        rewrite (last_cons_nonempty _ _ _ Hl). apply IH, Hl.
      * apply IH, Hne.
    + simpl filter. destruct (same_key r x) eqn:Hrx.
      * assert (Hl : filter (same_key r) l = []).
        { apply filter_nil_iff.
          rewrite (existsb_same_key_class _ _ l Hrx). exact Hdup. }
        rewrite Hl, (filter_drop_duplicates_nil _ _ Hl). reflexivity.
      * apply IH, Hne.
Qed.

(** ** Standardisation, row by row *)

Lemma mapM_compose {A B C : Type} (f : A -> result B) (g : B -> result C)
    (l : list A) (l1 : list B) (l2 : list C) :
  mapM f l = Ok l1 -> mapM g l1 = Ok l2 ->
  mapM (fun x => y <- f x ;; g y) l = Ok l2.
Proof.
  revert l1 l2. induction l as [|x l IH]; intros l1 l2 H1 H2; simpl in H1.
  - injection H1 as <-. exact H2.
  - destruct (f x) as [y|e] eqn:Hx; simpl in H1; [|discriminate].
    destruct (mapM f l) as [ys|e] eqn:Hl; simpl in H1; [|discriminate].
    injection H1 as <-. simpl in H2.
    destruct (g y) as [z|e] eqn:Hy; simpl in H2; [|discriminate].
    destruct (mapM g ys) as [zs|e] eqn:Hys; simpl in H2; [|discriminate].
    injection H2 as <-. simpl. rewrite Hx. simpl. rewrite Hy. simpl.
    rewrite (IH ys zs eq_refl Hys). reflexivity.
Qed.

Lemma mapM_pure {A B : Type} (h : A -> B) (l : list A) :
  mapM (fun x => Ok (h x)) l = Ok (map h l).
Proof.
  induction l as [|x l IH]; simpl; [reflexivity|]. rewrite IH. reflexivity.
Qed.

Lemma mapM_map {A B C : Type} (g : A -> B) (f : B -> result C) (l : list A) :
  mapM f (map g l) = mapM (fun x => f (g x)) l.
Proof.
  induction l as [|x l IH]; simpl; [reflexivity|]. rewrite IH. reflexivity.
Qed.

Lemma mapM_ext {A B : Type} (f g : A -> result B) (l : list A) :
  (forall x, f x = g x) -> mapM f l = mapM g l.
Proof.
  intros H. induction l as [|x l IH]; simpl; [reflexivity|].
  rewrite H, IH. reflexivity.
Qed.

Lemma filter_map_commute {A B : Type} (g : A -> B) (p : B -> bool) (l : list A) :
  filter p (map g l) = map g (filter (fun x => p (g x)) l).
Proof.
  induction l as [|x l IH]; simpl; [reflexivity|].
  destruct (p (g x)); simpl; rewrite IH; reflexivity.
Qed.

(** A successful [_standardize] is [standardize_row] on the retained rows,
    followed by the sort. *)
Lemma standardize_rows (df out : frame) :
  _standardize (Some df) = Ok out ->
  exists l, mapM standardize_row (filter retained df) = Ok l
            /\ out = sort_values l.
Proof.
  destruct df as [|r0 df0].
  - simpl. intros H. injection H as <-. exists []. split; reflexivity.
  - unfold _standardize. set (df := r0 :: df0). unfold dropna.
    rewrite filter_map_commute.
    change (fun x => complete (set_Date (to_datetime (Date x)) x)) with retained.
    set (l0 := filter retained df).
    destruct (mapM _ (map _ l0)) as [l1|e] eqn:H1; simpl; [|discriminate].
    destruct (mapM _ l1) as [l2|e] eqn:H2; simpl; [|discriminate].
    intros H. injection H as <-.
    rewrite !map_map. eexists. split; [|reflexivity].
    rewrite mapM_map in H1.
    pose proof (mapM_compose _ _ _ _ _ H1 H2) as H12.
    match goal with
    | |- context [map ?h l2] =>
        pose proof (mapM_compose _ _ _ _ _ H12 (mapM_pure h l2)) as H3
    end.
    rewrite <- H3. apply mapM_ext. intros x. unfold standardize_row.
    simpl. destruct (astype_int (FTHG x)); simpl; [|reflexivity].
    destruct (astype_int (FTAG x)); simpl; reflexivity.
Qed.

(** ** Standard rows *)

Lemma is_time_inv (d : dcell) : is_time d = true -> exists t, d = DTime t.
Proof. destruct d; simpl; intros H; try discriminate. eauto. Qed.

Lemma is_int_inv (c : cell) : is_int c = true -> exists z, c = VInt z.
Proof. destruct c; simpl; intros H; try discriminate. eauto. Qed.

Lemma is_stripped_inv (c : cell) :
  is_stripped c = true -> exists s, c = VStr s /\ strip s = s.
Proof.
  destruct c; simpl; intros H; try discriminate.
  apply String.eqb_eq in H. eauto.
Qed.

Lemma astype_str_strip_stripped (c : cell) :
  is_stripped (astype_str_strip c) = true.
Proof. simpl. apply String.eqb_eq, strip_idem. Qed.

Lemma to_datetime_time (d : dcell) :
  isna_date (to_datetime d) = false -> is_time (to_datetime d) = true.
Proof.
  destruct d as [t| |[| |z|s]]; simpl; try discriminate; try reflexivity.
  destruct (parse_datetime s); simpl; [reflexivity | discriminate].
Qed.

Lemma astype_int_is_int (c v : cell) : astype_int c = Ok v -> is_int v = true.
Proof.
  destruct c; simpl; intros H; try discriminate.
  - injection H as <-. reflexivity.
  - destruct (int_of_string s); [|discriminate]. injection H as <-. reflexivity.
Qed.

Lemma to_numeric_fillna_int_is_int (c : cell) :
  is_int (to_numeric_fillna_int c) = true.
Proof.
  destruct c; simpl; try reflexivity. destruct (numeric_of_string s); reflexivity.
Qed.

Lemma standardize_row_standard (r r' : row) :
  retained r = true -> standardize_row r = Ok r' -> standard_row r' = true.
Proof.
  unfold retained, standardize_row. intros Hr H.
  destruct (astype_int (FTHG r)) as [fthg|] eqn:Hh; simpl in H; [|discriminate].
  destruct (astype_int (FTAG r)) as [ftag|] eqn:Ha; simpl in H; [|discriminate].
  injection H as <-. unfold standard_row. simpl Date. simpl HomeTeam.
  simpl AwayTeam. simpl FTHG. simpl FTAG. simpl Competition. simpl CompCode.
  simpl Season.
  rewrite !astype_str_strip_stripped, to_numeric_fillna_int_is_int.
  rewrite (astype_int_is_int _ _ Hh), (astype_int_is_int _ _ Ha).
  rewrite to_datetime_time; [reflexivity|].
  rewrite !andb_true_iff, !negb_true_iff in Hr. tauto.
Qed.

(** A standard row, taken apart: a timestamp, stripped strings, integers. *)
Ltac standard_row_inv r H :=
  unfold standard_row in H; rewrite !andb_true_iff in H;
  destruct H as [[[[[[[Hd Hh] Ha] Hfh] Hfa] Hco] Hcc] Hse];
  destruct r as [d h a fh fa co cc se]; cbn [Date HomeTeam AwayTeam FTHG FTAG
    Competition CompCode Season] in *;
  destruct (is_time_inv _ Hd) as [t ->];
  destruct (is_stripped_inv _ Hh) as (sh & -> & Esh);
  destruct (is_stripped_inv _ Ha) as (sa & -> & Esa);
  destruct (is_int_inv _ Hfh) as [zh ->];
  destruct (is_int_inv _ Hfa) as [za ->];
  destruct (is_stripped_inv _ Hco) as (sco & -> & Esco);
  destruct (is_stripped_inv _ Hcc) as (scc & -> & Escc);
  destruct (is_int_inv _ Hse) as [zs ->].

Lemma standard_row_retained (r : row) :
  standard_row r = true -> retained r = true /\ standardize_row r = Ok r.
Proof.
  intros H. standard_row_inv r H.
  split; [reflexivity|].
  unfold standardize_row, astype_str_strip. simpl.
  rewrite Esh, Esa, Esco, Escc. reflexivity.
Qed.

(** Every column operation of [_standardize] leaves a standard row alone. *)
Lemma standard_row_steps (x : row) :
  standard_row x = true ->
  set_Date (to_datetime (Date x)) x = x
  /\ complete x = true
  /\ (v <- astype_int (FTHG x) ;; Ok (set_FTHG v x)) = Ok x
  /\ (v <- astype_int (FTAG x) ;; Ok (set_FTAG v x)) = Ok x
  /\ set_HomeTeam (astype_str_strip (HomeTeam x)) x = x
  /\ set_AwayTeam (astype_str_strip (AwayTeam x)) x = x
  /\ set_CompCode (astype_str_strip (CompCode x)) x = x
  /\ set_Competition (astype_str_strip (Competition x)) x = x
  /\ set_Season (to_numeric_fillna_int (Season x)) x = x.
Proof.
  intros H. standard_row_inv x H.
  unfold set_HomeTeam, set_AwayTeam, set_CompCode, set_Competition,
    astype_str_strip. simpl.
  rewrite Esh, Esa, Esco, Escc. repeat split; reflexivity.
Qed.

(** What [_standardize] returns is made of standard rows in date order. *)
Lemma standardize_output (df : option frame) (out : frame) :
  _standardize df = Ok out ->
  forallb standard_row out = true /\ sorted_by_date out = true.
Proof.
  destruct df as [df|]; [|simpl; intros H; injection H as <-; split; reflexivity].
  intros H. destruct (standardize_rows _ _ H) as (l & Hl & ->).
  split; [|apply sort_values_sorted].
  apply sort_values_forallb. apply forallb_forall. intros y Hy.
  apply mapM_Forall2 in Hl.
  assert (Hex : exists x, In x (filter retained df) /\ standardize_row x = Ok y).
  { clear H. induction Hl as [|x y' xs ys Hxy _ IH]; [contradiction|].
    destruct Hy as [<-|Hy].
    - exists x. split; [left; reflexivity | exact Hxy].
    - destruct (IH Hy) as (x' & Hin & Hx'). exists x'. split; [right|]; assumption. }
  destruct Hex as (x & Hin & Hx). apply filter_In in Hin.
  exact (standardize_row_standard _ _ (proj2 Hin) Hx).
Qed.

(** Standard rows in date order are left as they are. *)
Lemma standardize_fixed (l : frame) :
  forallb standard_row l = true -> sorted_by_date l = true ->
  _standardize (Some l) = Ok l.
Proof.
  intros Hstd Hsorted. rewrite forallb_forall in Hstd.
  assert (Hrow := fun x Hx => standard_row_steps x (Hstd x Hx)).
  destruct l as [|r0 l0]; [reflexivity|].
  unfold _standardize. remember (r0 :: l0) as df eqn:E in *. clear E r0 l0.
  unfold dropna.
  rewrite (map_fixed _ df) by (intros x Hx; apply (Hrow x Hx)).
  rewrite (filter_fixed complete df) by (intros x Hx; apply (Hrow x Hx)).
  rewrite (mapM_fixed _ df) by (intros x Hx; apply (Hrow x Hx)).
  cbn [rbind].
  rewrite (mapM_fixed _ df) by (intros x Hx; apply (Hrow x Hx)).
  cbn [rbind].
  rewrite (map_fixed (fun r => set_HomeTeam _ r) df)
    by (intros x Hx; apply (Hrow x Hx)).
  rewrite (map_fixed (fun r => set_AwayTeam _ r) df)
    by (intros x Hx; apply (Hrow x Hx)).
  rewrite (map_fixed (fun r => set_CompCode _ r) df)
    by (intros x Hx; apply (Hrow x Hx)).
  rewrite (map_fixed (fun r => set_Competition _ r) df)
    by (intros x Hx; apply (Hrow x Hx)).
  rewrite (map_fixed (fun r => set_Season _ r) df)
    by (intros x Hx; apply (Hrow x Hx)).
  rewrite (sort_values_fixed _ Hsorted). reflexivity.
Qed.


(** ** Merge *)

Lemma standardize_empty (incoming : option frame) :
  incoming = None \/ incoming = Some [] -> _standardize incoming = Ok [].
Proof. intros [-> | ->]; reflexivity. Qed.


Lemma filter_sort_values_single (p : row -> bool) (l : frame) (w : row) :
  filter p l = [w] -> filter p (sort_values l) = [w].
Proof.
  intros H. apply Permutation_length_1_inv. rewrite <- H.
  apply Permutation_sym.
  assert (HP : forall a b : frame, Permutation a b ->
                 Permutation (filter p a) (filter p b)).
  { intros a b Hab. induction Hab; simpl.
    - constructor.
    - destruct (p x); [apply perm_skip|]; assumption.
    - destruct (p x), (p y); try apply perm_swap; apply Permutation_refl.
    - eapply perm_trans; eassumption. }
  apply HP, sort_values_perm.
Qed.

Lemma last_app_nonempty (a b : frame) (d : row) :
  b <> [] -> last (a ++ b)%list d = last b d.
Proof.
  intros Hb. induction a as [|x a IH]; [reflexivity|].
  simpl app. rewrite last_cons_nonempty; [exact IH|].
  destruct a; simpl; [exact Hb | discriminate].
Qed.

Lemma filter_In_nonempty (p : row -> bool) (l : frame) (x : row) :
  In x l -> p x = true -> filter p l <> [].
Proof.
  intros Hin Hp Hnil. assert (H : In x (filter p l)) by (apply filter_In; auto).
  rewrite Hnil in H. exact H.
Qed.

Lemma last_In (l : frame) (d : row) : l <> [] -> In (last l d) l.
Proof.
  induction l as [|x l IH]; intros H; [contradiction|].
  destruct l as [|y l'].
  - left. reflexivity.
  - right. apply IH. discriminate.
Qed.

(** C2. Keep-last on a key collision: when the standardised [D1] and [D2]
    each hold a row of one identity key, with different competition names,
    the merge holds exactly one row of that key and it is a row of [D2],
    the last one of that key there, hence [D2]'s row itself when [D2] has
    one row of the key. *)
Theorem merge_keeps_incoming_version
    (D1 D2 : option frame) (E I : frame) (r1 r2 : row) :
  _standardize D1 = Ok E -> _standardize D2 = Ok I ->
  In r1 E -> In r2 I ->
  same_key r1 r2 = true -> Competition r1 <> Competition r2 ->
  exists merged w,
    merge_dedup D1 D2 = Ok merged
    /\ filter (same_key r2) merged = [w]
    /\ In w I
    /\ w = last (filter (same_key r2) I) r2
    /\ (filter (same_key r2) I = [r2] -> w = r2 /\ Competition w <> Competition r1).
Proof.
  intros HE HI Hr1 Hr2 Hkey Hcomp.
  pose proof (filter_In_nonempty (same_key r2) I r2 Hr2 (same_key_refl r2)) as HneI.
  exists (sort_values (drop_duplicates (E ++ I)%list)),
         (last (filter (same_key r2) I) r2).
  split; [unfold merge_dedup; rewrite HE, HI; reflexivity|].
  split.
  - apply filter_sort_values_single.
    rewrite drop_duplicates_keeps_last.
    + rewrite filter_app, last_app_nonempty by exact HneI. reflexivity.
    + rewrite filter_app. intros Hnil. apply app_eq_nil in Hnil.
      exact (HneI (proj2 Hnil)).
  - split.
    + pose proof (last_In _ r2 HneI) as Hin. apply filter_In in Hin.
      exact (proj1 Hin).
    + split; [reflexivity|]. intros ->. simpl. split; [reflexivity|].
      intros Heq. apply Hcomp. symmetry. exact Heq.
Qed.

(** A merge returns a dataset: standard rows, sorted, one per key. *)
Lemma merge_dedup_is_dataset (a b : option frame) (merged : frame) :
  merge_dedup a b = Ok merged -> is_dataset merged = true.
Proof.
  unfold merge_dedup.
  destruct (_standardize a) as [E|] eqn:Ha; simpl; [|discriminate].
  destruct (_standardize b) as [I|] eqn:Hb; simpl; [|discriminate].
  intros H. injection H as <-. unfold is_dataset.
  rewrite sort_values_sorted, sort_values_no_dup by apply drop_duplicates_no_dup.
  rewrite sort_values_forallb; [reflexivity|].
  apply forallb_forall. intros x Hx. apply drop_duplicates_In in Hx.
  pose proof (proj1 (standardize_output _ _ Ha)) as HE.
  pose proof (proj1 (standardize_output _ _ Hb)) as HIn.
  rewrite forallb_forall in HE, HIn.
  apply in_app_or in Hx. destruct Hx; auto.
Qed.

(** Merging nothing into a dataset returns it. *)
Lemma merge_dedup_dataset_nothing (D : frame) :
  is_dataset D = true -> merge_dedup (Some D) None = Ok D.
Proof.
  unfold is_dataset. rewrite !andb_true_iff. intros [[Hstd Hsorted] Hnodup].
  unfold merge_dedup. rewrite (standardize_fixed _ Hstd Hsorted). simpl.
  rewrite app_nil_r, (drop_duplicates_fixed _ Hnodup).
  rewrite (sort_values_fixed _ Hsorted). reflexivity.
Qed.

(** ** Incremental ingestion *)

Lemma ingest_seasons_skip (have : list (cell * cell)) (sleep_s : Z) (code : string)
    (seasons : list Z) (parts : list frame) (w : world) :
  (forall s, In s seasons -> in_have code s have = true) ->
  ingest_seasons have sleep_s code seasons parts w = (Ok parts, w).
Proof.
  induction seasons as [|s seasons IH]; intros H; simpl.
  - reflexivity.
  - rewrite (H s (or_introl eq_refl)). apply IH.
    intros s' Hs'. apply H. right. exact Hs'.
Qed.

Lemma ingest_codes_skip (have : list (cell * cell)) (sleep_s : Z)
    (codes : list string) (seasons : list Z) (parts : list frame) (w : world) :
  (forall c s, In c codes -> In s seasons -> in_have c s have = true) ->
  ingest_codes have sleep_s codes seasons parts w = (Ok parts, w).
Proof.
  induction codes as [|c codes IH]; intros H; simpl.
  - reflexivity.
  - unfold bind. rewrite ingest_seasons_skip.
    + apply IH. intros c' s Hc' Hs. apply H; [right|]; assumption.
    + intros s Hs. apply H; [left; reflexivity | exact Hs].
Qed.


(** ** Refresh *)

Lemma get_fd_token_ok (w : world) (tok : string) :
  environ_token w = Some tok -> strip tok <> "" ->
  _get_fd_token w = (Ok (strip tok), w).
Proof.
  intros Htok Hne. unfold _get_fd_token. rewrite Htok.
  destruct (String.eqb (strip tok) "") eqn:E; [|reflexivity].
  apply String.eqb_eq in E. contradiction.
Qed.

(** The world after a refresh: one request more in the trace, whatever the
    service answers and whatever becomes of the answer. *)
Lemma refresh_world (df_hist : option frame) (codes : list string)
    (w : world) (tok : string) :
  environ_token w = Some tok -> strip tok <> "" -> 8 <= utcnow_date w ->
  snd (refresh_last_7_days df_hist codes w)
  = mkWorld (environ_token w) (utcnow_date w)
      (trace w ++ [EGet {| url := BASE_URL ++ "/matches";
                           auth_token := strip tok;
                           params :=
                             if String.eqb (join "," codes) ""
                             then window_params (utcnow_date w)
                             else (window_params (utcnow_date w)
                                   ++ [("competitions", join "," codes)])%list |}])%list
      (files w) (session_state w).
Proof.
  intros Htok Hne Hday.
  unfold refresh_last_7_days, bind, lift, date_sub_days.
  assert (Hle : (1 <=? utcnow_date w - 7) = true) by (apply Z.leb_le; lia).
  rewrite Hle. unfold fetch_matches_by_date, bind.
  rewrite (get_fd_token_ok _ _ Htok Hne).
  unfold requests_get, bind, emit, lift, window_params.
  destruct (String.eqb (join "," codes) "");
    (destruct (http_get _) as [payload|e]; [|reflexivity]);
    (destruct (_normalize_payload payload None) as [incoming|e]; [|reflexivity]);
    reflexivity.
Qed.

(** C6. The refresher's window: the request carries [dateFrom], the date
    seven days before the current date, and [dateTo], the current date,
    both as calendar dates; on 2024-06-15 they are 2024-06-08 and
    2024-06-15. *)
Theorem refresh_window (df_hist : option frame) (codes : list string)
    (w : world) (tok : string) :
  environ_token w = Some tok -> strip tok <> "" -> 8 <= utcnow_date w ->
  exists req date_from,
    remote_calls (trace (snd (refresh_last_7_days df_hist codes w)))
      = (remote_calls (trace w) ++ [req])%list
    /\ date_sub_days (utcnow_date w) 7 = Ok date_from
    /\ utcnow_date w - date_from = 7
    /\ has_param req "dateFrom" (date_str date_from)
    /\ has_param req "dateTo" (date_str (utcnow_date w))
    /\ (utcnow_date w = ymd2ord 2024 6 15 ->
        has_param req "dateFrom" "2024-06-08"
        /\ has_param req "dateTo" "2024-06-15").
Proof.
  intros Htok Hne Hday.
  rewrite (refresh_world df_hist codes w tok Htok Hne Hday). simpl trace.
  eexists. exists (utcnow_date w - 7).
  assert (Hcalls : forall t r, remote_calls (t ++ [EGet r])%list
                               = (remote_calls t ++ [r])%list).
  { intros t r. induction t as [|[r'|z] t IH]; simpl; rewrite ?IH; reflexivity. }
  split; [apply Hcalls|].
  split; [unfold date_sub_days;
          replace (1 <=? utcnow_date w - 7) with true
            by (symmetry; apply Z.leb_le; lia); reflexivity|].
  split; [lia|].
  unfold has_param, window_params. simpl params.
  destruct (String.eqb (join "," codes) "").
  - split; [left; reflexivity|]. split; [right; left; reflexivity|].
    intros ->. split; [left | right; left]; reflexivity.
  - split; [left; reflexivity|]. split; [right; left; reflexivity|].
    intros ->. split; [left | right; left]; reflexivity.
Qed.

(** C7 (amended). With a token configured, the refresher issues exactly one
    remote call, to the matches end point, restricted to the date window
    and to finished matches; when the comma-joined code list is not empty
    the call is also restricted to it, the codes in the caller's order;
    when it is empty (no code selected) the call carries no competition
    restriction at all. *)
Theorem refresh_single_call (df_hist : option frame) (codes : list string)
    (w : world) (tok : string) :
  environ_token w = Some tok -> strip tok <> "" -> 8 <= utcnow_date w ->
  exists req,
    trace (snd (refresh_last_7_days df_hist codes w)) = (trace w ++ [EGet req])%list
    /\ url req = BASE_URL ++ "/matches"
    /\ has_param req "dateFrom" (date_str (utcnow_date w - 7))
    /\ has_param req "dateTo" (date_str (utcnow_date w))
    /\ has_param req "status" "FINISHED"
    /\ (join "," codes <> "" -> has_param req "competitions" (join "," codes))
    /\ (join "," codes = "" -> forall v, ~ has_param req "competitions" v).
Proof.
  intros Htok Hne Hday.
  rewrite (refresh_world df_hist codes w tok Htok Hne Hday). simpl trace.
  eexists. split; [reflexivity|]. split; [reflexivity|].
  unfold has_param, window_params. simpl params.
  destruct (String.eqb (join "," codes) "") eqn:E.
  - apply String.eqb_eq in E.
    split; [left; reflexivity|]. split; [right; left; reflexivity|].
    split; [right; right; left; reflexivity|].
    split; [intros H; contradiction|].
    intros _ v [H|[H|[H|[]]]]; discriminate.
  - apply String.eqb_neq in E.
    split; [left; reflexivity|]. split; [right; left; reflexivity|].
    split; [right; right; left; reflexivity|].
    split; [intros _; right; right; right; left; reflexivity|].
    intros H. contradiction.
Qed.

(** ** Normalisation *)

Lemma py_get_or_empty (x : json) (k : string) :
  null_or_dict x = true -> py_get (or_empty x) k = Ok (field x k).
Proof.
  destruct x as [| | | | |d]; simpl; intros H; try discriminate.
  - reflexivity.
  - destruct d; reflexivity.
Qed.

Lemma null_or_int_present (x : json) :
  null_or_int x = true -> is_none x = false -> exists z, x = JInt z.
Proof.
  destruct x; simpl; intros H1 H2; try discriminate. eexists. reflexivity.
Qed.

(** The normaliser on one entry of the service's shape. *)
Lemma normalize_match_api (season_hint : option Z) (m : json) :
  api_entry m = true ->
  normalize_match season_hint m
  = Ok (if is_finished m && scores_present m
        then match to_datetime_utc (field m "utcDate") with
             | Ok (Some t) => Some (emitted_row season_hint m t)
             | _ => None
             end
        else None).
Proof.
  intros Hapi. unfold api_entry in Hapi.
  destruct m as [| | | | |d]; try discriminate.
  rewrite !andb_true_iff in Hapi.
  destruct Hapi as [[[[[[[Hscore Hfull] Hhome] Haway] Hdate] Hht] Hat] Hcomp].
  unfold normalize_match.
  change (py_get (JDict d) "status") with (Ok (field (JDict d) "status")).
  change (py_get (JDict d) "score") with (Ok (field (JDict d) "score")).
  change (py_get (JDict d) "utcDate") with (Ok (field (JDict d) "utcDate")).
  change (py_get (JDict d) "homeTeam") with (Ok (field (JDict d) "homeTeam")).
  change (py_get (JDict d) "awayTeam") with (Ok (field (JDict d) "awayTeam")).
  change (py_get (JDict d) "competition") with (Ok (field (JDict d) "competition")).
  remember (JDict d) as m eqn:Em. clear Em d.
  cbn [rbind].
  assert (Hfin : py_ne_str (field m "status") "FINISHED" = negb (is_finished m)).
  { unfold is_finished. destruct (field m "status"); reflexivity. }
  rewrite Hfin. destruct (is_finished m); cbn [negb andb]; [|reflexivity].
  rewrite (py_get_or_empty _ "fullTime" Hscore). cbn [rbind].
  fold (full_time m).
  rewrite !(py_get_or_empty _ _ Hfull). cbn [rbind].
  unfold scores_present.
  destruct (is_none (field (full_time m) "home")) eqn:Nh; cbn [negb andb orb];
    [reflexivity|].
  destruct (is_none (field (full_time m) "away")) eqn:Na; cbn [negb andb orb];
    [reflexivity|].
  destruct (field m "utcDate") as [| | |sd| |] eqn:Ed; try discriminate;
    cbn [to_datetime_utc rbind].
  - reflexivity.
  - destruct (parse_datetime_utc sd) as [t|]; [|reflexivity].
    rewrite !(py_get_or_empty _ _ Hht), !(py_get_or_empty _ _ Hat). cbn [rbind].
    destruct (null_or_int_present _ Hhome Nh) as [zh Ezh].
    destruct (null_or_int_present _ Haway Na) as [za Eza].
    rewrite Ezh, Eza. cbn [py_int rbind].
    rewrite !(py_get_or_empty _ _ Hcomp). cbn [rbind].
    unfold emitted_row. rewrite Ezh, Eza. reflexivity.
Qed.

Lemma normalize_matches_api (season_hint : option Z) (ms : list json) :
  forallb api_entry ms = true ->
  exists rows, normalize_matches season_hint ms = Ok rows
               /\ List.length rows = List.length (filter passes ms).
Proof.
  induction ms as [|m ms IH]; intros H.
  - exists []. split; reflexivity.
  - simpl in H. apply andb_true_iff in H. destruct H as [Hm Hms].
    destruct (IH Hms) as (rows & Hrows & Hlen).
    simpl. rewrite (normalize_match_api _ _ Hm), Hrows. simpl.
    unfold passes at 1. unfold timestamp_parses.
    destruct (is_finished m && scores_present m); simpl.
    + destruct (to_datetime_utc (field m "utcDate")) as [[t|]|e]; simpl;
        eexists; split; try reflexivity; simpl; auto.
    + eexists; split; [reflexivity | exact Hlen].
Qed.

(** C8 (amended). The drop rule on entries of the service's shape (an
    object whose nested members are objects or null, whose goal counts are
    integers or null and whose timestamp is a string or null): such an
    entry yields a record if and only if it is finished, has both
    full-time scores and a timestamp that parses; otherwise it is dropped
    and nothing is raised; a payload of such entries yields one record per
    entry that passes. *)
Theorem normalize_drop_rule (season_hint : option Z) (payload : json)
    (ms : list json) :
  py_get_default payload "matches" (JList []) = Ok (JList ms) ->
  forallb api_entry ms = true ->
  (forall m, In m ms ->
     ((exists r, normalize_match season_hint m = Ok (Some r))
      <-> (is_finished m = true /\ scores_present m = true
           /\ timestamp_parses m = true))
     /\ (passes m = false -> normalize_match season_hint m = Ok None))
  /\ exists rows, _normalize_payload payload season_hint = Ok rows
                  /\ List.length rows = List.length (filter passes ms).
Proof.
  intros Hget Hall. split.
  - intros m Hm. rewrite forallb_forall in Hall.
    rewrite (normalize_match_api season_hint m (Hall m Hm)).
    unfold passes, timestamp_parses.
    destruct (is_finished m), (scores_present m); simpl;
      destruct (to_datetime_utc (field m "utcDate")) as [[t|]|e]; simpl;
      split; try reflexivity; try discriminate;
      split; try (intros (? & ? & ?); discriminate);
      try (intros [r Hr]; discriminate); eauto.
  - unfold _normalize_payload. rewrite Hget. simpl.
    apply normalize_matches_api, Hall.
Qed.

(** ** Failure of a remote call during ingestion *)

Lemma same_store_refl (w : world) : same_store w w.
Proof. repeat split. Qed.

Lemma same_store_trans (w1 w2 w3 : world) :
  same_store w1 w2 -> same_store w2 w3 -> same_store w1 w3.
Proof. unfold same_store. intuition congruence. Qed.

Lemma fetch_competition_matches_store (code : string) (season : Z) (w : world) :
  same_store w (snd (fetch_competition_matches code season w)).
Proof.
  unfold fetch_competition_matches, bind, _get_fd_token.
  destruct (String.eqb _ ""); [apply same_store_refl|].
  unfold requests_get, bind, emit, lift. cbn [fst snd].
  repeat split.
Qed.

Lemma fetch_competition_matches_token (code : string) (season : Z) (w w' : world) :
  same_store w w' ->
  fst (fetch_competition_matches code season w')
  = fst (fetch_competition_matches code season w).
Proof.
  intros (Htok & _). unfold fetch_competition_matches, bind, _get_fd_token.
  rewrite Htok. destruct (String.eqb _ ""); [reflexivity|].
  unfold requests_get, bind, emit, lift. cbn [fst snd].
  reflexivity.
Qed.

Lemma fetch_fails_store (w w' : world) (code : string) (season : Z) :
  same_store w w' -> fetch_fails w code season -> fetch_fails w' code season.
Proof.
  intros Hs [e He]. exists e.
  rewrite (fetch_competition_matches_token _ _ _ _ Hs). exact He.
Qed.

Lemma ingest_seasons_store (have : list (cell * cell)) (sleep_s : Z) (code : string)
    (seasons : list Z) (parts : list frame) (w : world) :
  same_store w (snd (ingest_seasons have sleep_s code seasons parts w)).
Proof.
  revert parts w. induction seasons as [|s seasons IH]; intros parts w.
  - apply same_store_refl.
  - cbn [ingest_seasons]. destruct (in_have code s have); [apply IH|].
    unfold bind at 1.
    pose proof (fetch_competition_matches_store code s w) as Hf.
    destruct (fetch_competition_matches code s w) as [[payload|e] w1];
      cbn [snd] in *; [|exact Hf].
    unfold bind at 1, lift at 1.
    destruct (_normalize_payload payload (Some s)) as [part|e]; [|exact Hf].
    unfold bind at 1, emit at 1.
    eapply same_store_trans; [exact Hf|].
    eapply same_store_trans; [|apply IH]. repeat split.
Qed.

Lemma ingest_seasons_aborts (have : list (cell * cell)) (sleep_s : Z) (code : string)
    (seasons : list Z) (parts : list frame) (w : world) (season : Z) :
  In season seasons -> in_have code season have = false ->
  fetch_fails w code season ->
  exists e, fst (ingest_seasons have sleep_s code seasons parts w) = Raise e.
Proof.
  revert parts w. induction seasons as [|s seasons IH]; intros parts w Hin Hmiss Hfail.
  - contradiction.
  - cbn [ingest_seasons]. destruct (in_have code s have) eqn:Hs.
    + destruct Hin as [->|Hin]; [congruence|]. apply IH; assumption.
    + unfold bind at 1.
      pose proof (fetch_competition_matches_store code s w) as Hf.
      destruct (fetch_competition_matches code s w) as [[payload|e] w1] eqn:Hfetch;
        cbn [snd] in Hf; [|exists e; reflexivity].
      destruct Hin as [->|Hin].
      { destruct Hfail as [e He]. rewrite Hfetch in He. discriminate. }
      unfold bind at 1, lift at 1.
      destruct (_normalize_payload payload (Some s)) as [part|e];
        [|exists e; reflexivity].
      unfold bind at 1, emit at 1. apply IH; try assumption.
      eapply fetch_fails_store; [|exact Hfail].
      eapply same_store_trans; [exact Hf|]. repeat split.
Qed.

Lemma ingest_codes_store (have : list (cell * cell)) (sleep_s : Z)
    (codes : list string) (seasons : list Z) (parts : list frame) (w : world) :
  same_store w (snd (ingest_codes have sleep_s codes seasons parts w)).
Proof.
  revert parts w. induction codes as [|c codes IH]; intros parts w.
  - apply same_store_refl.
  - cbn [ingest_codes]. unfold bind.
    pose proof (ingest_seasons_store have sleep_s c seasons parts w) as Hs.
    destruct (ingest_seasons have sleep_s c seasons parts w) as [[parts'|e] w1];
      cbn [snd] in *; [|exact Hs].
    eapply same_store_trans; [exact Hs | apply IH].
Qed.

Lemma ingest_codes_aborts (have : list (cell * cell)) (sleep_s : Z)
    (codes : list string) (seasons : list Z) (parts : list frame) (w : world)
    (code : string) (season : Z) :
  In code codes -> In season seasons -> in_have code season have = false ->
  fetch_fails w code season ->
  exists e, fst (ingest_codes have sleep_s codes seasons parts w) = Raise e.
Proof.
  revert parts w. induction codes as [|c codes IH];
    intros parts w Hc Hs Hmiss Hfail.
  - contradiction.
  - cbn [ingest_codes]. unfold bind.
    pose proof (ingest_seasons_store have sleep_s c seasons parts w) as Hst.
    destruct (ingest_seasons have sleep_s c seasons parts w) as [[parts'|e] w1] eqn:Hrun;
      cbn [snd] in Hst; [|exists e; reflexivity].
    destruct Hc as [->|Hc].
    + destruct (ingest_seasons_aborts have sleep_s code seasons parts w season
                  Hs Hmiss Hfail) as [e He].
      rewrite Hrun in He. discriminate.
    + apply IH; try assumption. eapply fetch_fails_store; eassumption.
Qed.

Lemma ingest_missing_seasons_store (df_hist : option frame) (codes : list string)
    (seasons : list Z) (sleep_s : Z) (w : world) :
  same_store w (snd (ingest_missing_seasons df_hist codes seasons sleep_s w)).
Proof.
  unfold ingest_missing_seasons, bind, lift.
  destruct (existing_comp_seasons df_hist) as [have|e]; [|apply same_store_refl].
  pose proof (ingest_codes_store have sleep_s codes seasons [] w) as Hs.
  destruct (ingest_codes have sleep_s codes seasons [] w) as [[parts|e] w1];
    cbn [snd] in *; exact Hs.
Qed.

Lemma ingest_missing_seasons_aborts (df_hist : option frame) (codes : list string)
    (seasons : list Z) (sleep_s : Z) (w : world) (code : string) (season : Z) :
  In code codes -> In season seasons -> fetch_fails w code season ->
  (forall have, existing_comp_seasons df_hist = Ok have ->
                in_have code season have = false) ->
  exists e, fst (ingest_missing_seasons df_hist codes seasons sleep_s w) = Raise e.
Proof.
  intros Hc Hs Hfail Hmiss. unfold ingest_missing_seasons, bind, lift.
  destruct (existing_comp_seasons df_hist) as [have|e]; [|exists e; reflexivity].
  destruct (ingest_codes_aborts have sleep_s codes seasons [] w code season
              Hc Hs (Hmiss have eq_refl) Hfail) as [e He].
  destruct (ingest_codes have sleep_s codes seasons [] w) as [[parts|e'] w1];
    cbn [fst] in He; [discriminate|]. exists e'. reflexivity.
Qed.

Lemma load_cache_world (path : string) (w : world) :
  snd (load_cache path w) = w.
Proof.
  unfold load_cache. destruct (file_lookup (files w) path); reflexivity.
Qed.

(** C9. Atomicity on a remote failure: when the fetch of a requested pair
    that the dataset lacks raises, the ingestion raises (no merge result),
    and the action of the control surface that runs it raises too, leaving
    the files and the dataset of the session as they were. *)
Theorem ingest_aborts_on_remote_failure (cache_path : string)
    (codes : list string) (seasons : list Z) (sleep_s : Z) (w : world)
    (code : string) (season : Z) :
  In code codes -> In season seasons -> fetch_fails w code season ->
  (forall cached have,
     fst (load_cache cache_path w) = Ok cached ->
     existing_comp_seasons (session_or w cached) = Ok have ->
     in_have code season have = false) ->
  (forall cached, fst (load_cache cache_path w) = Ok cached ->
     exists e, fst (ingest_missing_seasons (session_or w cached) codes seasons
                      sleep_s w) = Raise e)
  /\ (exists e, fst (on_ingest_missing_seasons cache_path codes seasons sleep_s w)
                = Raise e)
  /\ files (snd (on_ingest_missing_seasons cache_path codes seasons sleep_s w))
     = files w
  /\ session_state (snd (on_ingest_missing_seasons cache_path codes seasons sleep_s w))
     = session_state w.
Proof.
  intros Hc Hs Hfail Hmiss.
  assert (Hing : forall cached, fst (load_cache cache_path w) = Ok cached ->
            exists e, fst (ingest_missing_seasons (session_or w cached) codes seasons
                             sleep_s w) = Raise e).
  { intros cached Hload.
    apply (ingest_missing_seasons_aborts _ _ _ _ _ code season Hc Hs Hfail).
    intros have Hhave. exact (Hmiss cached have Hload Hhave). }
  split; [exact Hing|].
  assert (Hrun : exists e w',
            on_ingest_missing_seasons cache_path codes seasons sleep_s w
              = (Raise e, w')
            /\ files w' = files w /\ session_state w' = session_state w).
  { unfold on_ingest_missing_seasons, bind.
    pose proof (load_cache_world cache_path w) as Hw.
    destruct (load_cache cache_path w) as [[cached|e] w0] eqn:Hload;
      cbn [snd] in Hw; subst w0.
    2:{ exists e, w. repeat split. }
    unfold session_get. fold (session_or w cached).
    destruct (Hing cached eq_refl) as [e He].
    pose proof (ingest_missing_seasons_store (session_or w cached) codes seasons
                  sleep_s w) as (_ & _ & Hfiles & Hsession).
    destruct (ingest_missing_seasons (session_or w cached) codes seasons sleep_s w)
      as [[df|e'] w1]; cbn [fst snd] in *; [discriminate|].
    exists e', w1. repeat split; assumption. }
  destruct Hrun as (e & w' & -> & Hfiles & Hsession). cbn [fst snd].
  split; [exists e; reflexivity | split; assumption].
Qed.

(** ** Rows with a null competition *)

Lemma Forall2_In_left {A B : Type} (R : A -> B -> Prop) (l : list A) (l' : list B)
    (x : A) :
  Forall2 R l l' -> In x l -> exists y, In y l' /\ R x y.
Proof.
  induction 1 as [|a b l l' Hab _ IH]; intros Hin; [contradiction|].
  destruct Hin as [<-|Hin].
  - exists b. split; [left; reflexivity | exact Hab].
  - destruct (IH Hin) as (y & Hy & Hxy). exists y. split; [right|]; assumption.
Qed.

Lemma Forall2_In_right {A B : Type} (R : A -> B -> Prop) (l : list A) (l' : list B)
    (y : B) :
  Forall2 R l l' -> In y l' -> exists x, In x l /\ R x y.
Proof.
  induction 1 as [|a b l l' Hab _ IH]; intros Hin; [contradiction|].
  destruct Hin as [<-|Hin].
  - exists a. split; [left; reflexivity | exact Hab].
  - destruct (IH Hin) as (x & Hx & Hxy). exists x. split; [right|]; assumption.
Qed.

Lemma standardize_row_competition (r r' : row) :
  standardize_row r = Ok r' ->
  CompCode r' = astype_str_strip (CompCode r)
  /\ Competition r' = astype_str_strip (Competition r).
Proof.
  unfold standardize_row. intros H.
  destruct (astype_int (FTHG r)); cbn [rbind] in H; [|discriminate].
  destruct (astype_int (FTAG r)); cbn [rbind] in H; [|discriminate].
  injection H as <-. split; reflexivity.
Qed.

Lemma astype_str_strip_null (c : cell) :
  isna c = true ->
  astype_str_strip c = VStr "None" \/ astype_str_strip c = VStr "nan".
Proof.
  destruct c; simpl; intros H; try discriminate; [left | right]; reflexivity.
Qed.

(** C10. What [_standardize] drops and keeps: the result has one row for
    each input row whose date converts and whose teams and goal counts are
    present, and no other; a kept row whose competition code or name is
    null has that null replaced by the string [None] or [nan], and enters
    the set of [existing_comp_seasons] under that string. *)
Theorem standardize_keeps_null_competition (df out : frame) :
  _standardize (Some df) = Ok out ->
  List.length out = List.length (filter retained df)
  /\ (forall r, In r df -> retained r = true ->
       exists r',
         In r' out /\ standardize_row r = Ok r'
         /\ (isna (CompCode r) = true ->
             CompCode r' = VStr "None" \/ CompCode r' = VStr "nan")
         /\ (isna (Competition r) = true ->
             Competition r' = VStr "None" \/ Competition r' = VStr "nan")
         /\ (forall have, existing_comp_seasons (Some df) = Ok have ->
             In (CompCode r', Season r') have))
  /\ (forall r', In r' out ->
       exists r, In r df /\ retained r = true /\ standardize_row r = Ok r').
Proof.
  intros Hstd. destruct (standardize_rows _ _ Hstd) as (l & Hl & Hout).
  pose proof (mapM_Forall2 _ _ _ Hl) as HF.
  pose proof (sort_values_perm l) as HP. rewrite <- Hout in HP.
  split; [|split].
  - rewrite (Permutation_length HP). symmetry. exact (Forall2_length HF).
  - intros r Hr Hret.
    assert (Hin : In r (filter retained df)) by (apply filter_In; auto).
    destruct (Forall2_In_left _ _ _ _ HF Hin) as (r' & Hr' & Hrow).
    exists r'. destruct (standardize_row_competition _ _ Hrow) as [Hcc Hco].
    assert (Hr'out : In r' out) by exact (Permutation_in _ (Permutation_sym HP) Hr').
    split; [exact Hr'out|]. split; [exact Hrow|].
    split; [intros Hna; rewrite Hcc; apply astype_str_strip_null, Hna|].
    split; [intros Hna; rewrite Hco; apply astype_str_strip_null, Hna|].
    intros have Hhave. unfold existing_comp_seasons in Hhave.
    rewrite Hstd in Hhave. cbn [rbind] in Hhave. injection Hhave as <-.
    exact (in_map (fun x => (CompCode x, Season x)) _ _ Hr'out).
  - intros r' Hr'. pose proof (Permutation_in _ HP Hr') as Hr'l.
    destruct (Forall2_In_right _ _ _ _ HF Hr'l) as (r & Hr & Hrow).
    apply filter_In in Hr. exists r.
    split; [exact (proj1 Hr) | split; [exact (proj2 Hr) | exact Hrow]].
Qed.

(** * Further properties *)

(** ** Standardisation *)

(** The result of [_standardize] is sorted by date, made of standard rows
    (a timestamp, stripped strings, integers), and has at most as many rows
    as the input. *)
Theorem standardize_result_shape (df : option frame) (out : frame) :
  _standardize df = Ok out ->
  sorted_by_date out = true
  /\ forallb standard_row out = true
  /\ (List.length out
      <= List.length (match df with Some d => d | None => [] end))%nat.
Proof.
  intros H. destruct (standardize_output _ _ H) as [Hstd Hsorted].
  split; [exact Hsorted|]. split; [exact Hstd|].
  destruct df as [d|]; [|simpl in H; injection H as <-; apply le_n].
  destruct (standardize_rows _ _ H) as (l & Hl & ->).
  rewrite (Permutation_length (sort_values_perm l)).
  rewrite <- (Forall2_length (mapM_Forall2 _ _ _ Hl)).
  apply filter_length_le.
Qed.

Lemma mapM_raise_In {A B : Type} (f : A -> result B) (l : list A) (e : exn) :
  mapM f l = Raise e -> exists x, In x l /\ f x = Raise e.
Proof.
  induction l as [|x l IH]; simpl; intros H; [discriminate|].
  destruct (f x) as [y|e'] eqn:Hx; cbn [rbind] in H.
  - destruct (mapM f l) as [ys|e'] eqn:Hl; cbn [rbind] in H; [discriminate|].
    injection H as ->. destruct (IH eq_refl) as (x' & Hin & Hx').
    exists x'. split; [right; exact Hin | exact Hx'].
  - injection H as ->. exists x. split; [left; reflexivity | exact Hx].
Qed.

Lemma astype_int_raise (c : cell) (e : exn) :
  isna c = false -> astype_int c = Raise e -> e = ValueError.
Proof.
  destruct c; simpl; intros Hna H; try discriminate.
  destruct (int_of_string s); [discriminate|]. injection H as <-. reflexivity.
Qed.

Lemma mapM_compose_inv {A B C : Type} (f : A -> result B) (g : B -> result C)
    (l : list A) (l2 : list C) :
  mapM (fun x => y <- f x ;; g y) l = Ok l2 ->
  exists l1, mapM f l = Ok l1 /\ mapM g l1 = Ok l2.
Proof.
  revert l2. induction l as [|x l IH]; intros l2 H; simpl in H.
  - injection H as <-. exists []. split; reflexivity.
  - destruct (f x) as [y|] eqn:Hx; cbn [rbind] in H; [|discriminate].
    destruct (g y) as [z|] eqn:Hy; cbn [rbind] in H; [|discriminate].
    destruct (mapM _ l) as [zs|] eqn:Hl; cbn [rbind] in H; [|discriminate].
    injection H as <-. destruct (IH zs eq_refl) as (ys & Hys & Hzs).
    exists (y :: ys). simpl. rewrite Hx, Hys. cbn [rbind].
    rewrite Hy, Hzs. split; reflexivity.
Qed.

(** The column operations of [_standardize], read along one row. *)
Lemma standardize_row_columns (x : row) :
  (y <- (y1 <- home_goals_column (set_Date (to_datetime (Date x)) x) ;;
         away_goals_column y1) ;;
   Ok (clean_columns y))
  = standardize_row x.
Proof.
  unfold standardize_row, home_goals_column, away_goals_column, clean_columns.
  simpl.
  destruct (astype_int (FTHG x)); simpl; [|reflexivity].
  destruct (astype_int (FTAG x)); simpl; reflexivity.
Qed.

(** The column operations succeed when every row does. *)
Lemma standardize_rows_complete (df l : frame) :
  mapM standardize_row (filter retained df) = Ok l ->
  _standardize (Some df) = Ok (sort_values l).
Proof.
  destruct df as [|r0 df0].
  - simpl. intros H. injection H as <-. reflexivity.
  - unfold _standardize. remember (r0 :: df0) as df eqn:E. clear E r0 df0.
    unfold dropna. rewrite filter_map_commute.
    change (fun x => complete (set_Date (to_datetime (Date x)) x)) with retained.
    rewrite mapM_map. intros H.
    rewrite <- (mapM_ext _ _ _ standardize_row_columns) in H.
    apply mapM_compose_inv in H. destruct H as (l2 & H12 & Hl).
    apply mapM_compose_inv in H12. destruct H12 as (l1 & H1 & H2).
    rewrite mapM_pure in Hl. injection Hl as <-.
    unfold home_goals_column in H1. unfold away_goals_column in H2.
    rewrite H1. cbn [rbind]. rewrite H2. cbn [rbind].
    rewrite !map_map. reflexivity.
Qed.


(** ** Merge *)


Lemma has_key_drop_duplicates (l : frame) (r : row) :
  has_key (drop_duplicates l) r = has_key l r.
Proof.
  unfold has_key. destruct (existsb (same_key r) l) eqn:H.
  - assert (Hne : filter (same_key r) l <> []).
    { intros Hnil. apply filter_nil_iff in Hnil. congruence. }
    pose proof (drop_duplicates_keeps_last r l Hne) as Hlast.
    destruct (existsb (same_key r) (drop_duplicates l)) eqn:H'; [reflexivity|].
    apply filter_nil_iff in H'. rewrite H' in Hlast. discriminate.
  - apply filter_nil_iff. apply filter_drop_duplicates_nil.
    apply filter_nil_iff. exact H.
Qed.

Lemma has_key_sort_values (l : frame) (r : row) :
  has_key (sort_values l) r = has_key l r.
Proof. unfold has_key. apply existsb_perm, sort_values_perm. Qed.

Lemma merge_dedup_has_key (a b : option frame) (E I merged : frame) (r : row) :
  _standardize a = Ok E -> _standardize b = Ok I ->
  merge_dedup a b = Ok merged ->
  has_key merged r = has_key E r || has_key I r.
Proof.
  intros Ha Hb H. unfold merge_dedup in H. rewrite Ha, Hb in H.
  cbn [rbind] in H. injection H as <-.
  rewrite has_key_sort_values, has_key_drop_duplicates.
  unfold has_key. apply existsb_app.
Qed.

(** A merge neither loses nor invents a match: its rows are rows of the
    two standardised inputs, and an identity key is in the result exactly
    when it is in one of them. *)
Theorem merge_dedup_keys (a b : option frame) (E I merged : frame) :
  _standardize a = Ok E -> _standardize b = Ok I ->
  merge_dedup a b = Ok merged ->
  (forall r, In r merged -> In r E \/ In r I)
  /\ (forall r, has_key merged r = has_key E r || has_key I r)
  /\ (forall r, In r E \/ In r I -> has_key merged r = true).
Proof.
  intros Ha Hb H.
  assert (Hkeys : forall r, has_key merged r = has_key E r || has_key I r).
  { intros r. exact (merge_dedup_has_key _ _ _ _ _ r Ha Hb H). }
  split; [|split; [exact Hkeys|]].
  - unfold merge_dedup in H. rewrite Ha, Hb in H. cbn [rbind] in H.
    injection H as <-. intros r Hr.
    apply (Permutation_in _ (sort_values_perm _)) in Hr.
    apply drop_duplicates_In in Hr. apply in_app_or, Hr.
  - intros r Hr. rewrite Hkeys. apply orb_true_iff.
    destruct Hr as [Hr|Hr]; [left | right];
      apply existsb_exists; exists r; split;
      try exact Hr; apply same_key_refl.
Qed.

(** Merging three collections in either grouping succeeds when the three
    standardise, and gives the same identity keys: those of the three
    standardised collections. *)
Theorem merge_dedup_assoc_keys (A B C : option frame) (EA EB EC : frame) :
  _standardize A = Ok EA -> _standardize B = Ok EB -> _standardize C = Ok EC ->
  exists grouped_left grouped_right,
    (AB <- merge_dedup A B ;; merge_dedup (Some AB) C) = Ok grouped_left
    /\ (BC <- merge_dedup B C ;; merge_dedup A (Some BC)) = Ok grouped_right
    /\ forall r, has_key grouped_left r = has_key grouped_right r
                 /\ has_key grouped_left r = has_key EA r || has_key EB r || has_key EC r.
Proof.
  intros HA HB HC.
  destruct (merge_dedup A B) as [AB|] eqn:HAB;
    [|unfold merge_dedup in HAB; rewrite HA, HB in HAB; discriminate].
  destruct (merge_dedup B C) as [BC|] eqn:HBC;
    [|unfold merge_dedup in HBC; rewrite HB, HC in HBC; discriminate].
  pose proof (merge_dedup_is_dataset _ _ _ HAB) as HdAB.
  pose proof (merge_dedup_is_dataset _ _ _ HBC) as HdBC.
  unfold is_dataset in HdAB, HdBC. rewrite !andb_true_iff in HdAB, HdBC.
  destruct HdAB as [[HAB1 HAB2] _]. destruct HdBC as [[HBC1 HBC2] _].
  pose proof (standardize_fixed _ HAB1 HAB2) as HsAB.
  pose proof (standardize_fixed _ HBC1 HBC2) as HsBC.
  cbn [rbind].
  destruct (merge_dedup (Some AB) C) as [L|] eqn:HL;
    [|unfold merge_dedup in HL; rewrite HsAB, HC in HL; discriminate].
  destruct (merge_dedup A (Some BC)) as [R|] eqn:HR;
    [|unfold merge_dedup in HR; rewrite HA, HsBC in HR; discriminate].
  exists L, R. split; [reflexivity|]. split; [reflexivity|]. intros r.
  rewrite (merge_dedup_has_key _ _ _ _ _ r HsAB HC HL).
  rewrite (merge_dedup_has_key _ _ _ _ _ r HA HsBC HR).
  rewrite (merge_dedup_has_key _ _ _ _ _ r HA HB HAB).
  rewrite (merge_dedup_has_key _ _ _ _ _ r HB HC HBC).
  split; [symmetry; apply orb_assoc | reflexivity].
Qed.

Lemma drop_duplicates_app_covered (A B : frame) :
  (forall x, In x A -> has_key B x = true) ->
  drop_duplicates (A ++ B)%list = drop_duplicates B.
Proof.
  induction A as [|x A IH]; intros H; [reflexivity|].
  simpl. rewrite existsb_app.
  assert (Hx : existsb (same_key x) B = true) by (apply H; left; reflexivity).
  rewrite Hx, orb_true_r. apply IH. intros y Hy. apply H. right. exact Hy.
Qed.

(** Merging a collection with itself adds nothing: it is the merge of the
    collection with nothing. *)
Theorem merge_dedup_same_twice (D : option frame) :
  merge_dedup D D = merge_dedup D None.
Proof.
  unfold merge_dedup. destruct (_standardize D) as [E|e]; [|reflexivity].
  cbn [rbind _standardize]. rewrite app_nil_r.
  rewrite drop_duplicates_app_covered; [reflexivity|].
  intros x Hx. apply existsb_exists. exists x.
  split; [exact Hx | apply same_key_refl].
Qed.

(** ** Normalisation *)

Ltac normalize_step H :=
  match type of H with
  | rbind ?x _ = _ => destruct x; cbn [rbind] in H; [|discriminate]
  | (if ?c then _ else _) = _ => destruct c; [discriminate|]
  | match ?x with Some _ => _ | None => _ end = _ => destruct x; [|discriminate]
  end.

Lemma normalize_match_row (season_hint : option Z) (m : json) (r : row) :
  normalize_match season_hint m = Ok (Some r) ->
  exists t, Date r = DTime t /\ is_int (FTHG r) = true /\ is_int (FTAG r) = true
            /\ Season r = VInt (season_of season_hint t).
Proof.
  intros H. unfold normalize_match in H. repeat normalize_step H.
  injection H as <-. eexists. repeat split.
Qed.

Lemma normalize_matches_rows (season_hint : option Z) (ms : list json) (rows : frame) :
  normalize_matches season_hint ms = Ok rows ->
  (forall r, In r rows ->
     exists t, Date r = DTime t /\ is_int (FTHG r) = true
               /\ is_int (FTAG r) = true
               /\ Season r = VInt (season_of season_hint t))
  /\ (List.length rows <= List.length ms)%nat.
Proof.
  revert rows. induction ms as [|m ms IH]; intros rows H; simpl in H.
  - injection H as <-. split; [intros r []|apply le_n].
  - destruct (normalize_match season_hint m) as [o|] eqn:Hm; cbn [rbind] in H;
      [|discriminate].
    destruct (normalize_matches season_hint ms) as [rows'|]; cbn [rbind] in H;
      [|discriminate].
    destruct (IH rows' eq_refl) as [Hrows Hlen]. injection H as <-.
    destruct o as [x|]; split.
    + intros r [<-|Hr]; [exact (normalize_match_row _ _ _ Hm) | exact (Hrows r Hr)].
    + simpl. apply le_n_S, Hlen.
    + exact Hrows.
    + simpl. apply le_S, Hlen.
Qed.

(** Whatever the payload, every record the normaliser returns has a
    timestamp as date, integer goal counts and, as season, the hint when
    one is given and the year of the timestamp otherwise; there are at most
    as many records as entries. *)
Theorem normalize_payload_rows (payload : json) (season_hint : option Z)
    (rows : frame) :
  _normalize_payload payload season_hint = Ok rows ->
  (forall r, In r rows ->
     exists t, Date r = DTime t /\ is_int (FTHG r) = true
               /\ is_int (FTAG r) = true
               /\ Season r = VInt (season_of season_hint t))
  /\ (forall ms, field payload "matches" = JList ms ->
        (List.length rows <= List.length ms)%nat).
Proof.
  intros H. unfold _normalize_payload in H.
  destruct payload as [| | | | |d]; try discriminate. cbn [py_get_default rbind] in H.
  destruct (py_iter _) as [ms0|] eqn:Hiter; cbn [rbind] in H; [|discriminate].
  destruct (normalize_matches_rows _ _ _ H) as [Hrows Hlen].
  split; [exact Hrows|]. intros ms Hms. cbn [field] in Hms.
  destruct (dict_get d "matches") as [v|]; subst; cbn [py_iter] in Hiter;
    [|discriminate]. injection Hiter as <-. exact Hlen.
Qed.

(** The payload at its edges: a payload that is not an object raises
    [AttributeError]; an object without [matches], or with an empty list,
    gives the empty frame; [matches] holding null, a boolean or a number
    raises [TypeError]. *)
Theorem normalize_payload_edges (season_hint : option Z) :
  (forall payload, (forall d, payload <> JDict d) ->
     _normalize_payload payload season_hint = Raise AttributeError)
  /\ (forall d, dict_get d "matches" = None ->
        _normalize_payload (JDict d) season_hint = Ok [])
  /\ (forall d, dict_get d "matches" = Some (JList []) ->
        _normalize_payload (JDict d) season_hint = Ok [])
  /\ (forall d v, dict_get d "matches" = Some v ->
        v = JNull \/ (exists b, v = JBool b) \/ (exists z, v = JInt z) ->
        _normalize_payload (JDict d) season_hint = Raise TypeError).
Proof.
  split; [|split; [|split]].
  - intros payload Hnot. destruct payload; try reflexivity.
    contradiction (Hnot d eq_refl).
  - intros d Hd. unfold _normalize_payload. cbn [py_get_default]. rewrite Hd.
    reflexivity.
  - intros d Hd. unfold _normalize_payload. cbn [py_get_default]. rewrite Hd.
    reflexivity.
  - intros d v Hd Hv. unfold _normalize_payload. cbn [py_get_default]. rewrite Hd.
    destruct Hv as [->|[[b ->]|[z ->]]]; reflexivity.
Qed.

(** An entry whose status is not [FINISHED] is skipped before anything
    else of it is read: a payload of objects none of which is finished
    gives the empty frame, whatever their other members hold. *)
Theorem normalize_skips_unfinished (season_hint : option Z)
    (d : list (string * json)) (ms : list json) :
  dict_get d "matches" = Some (JList ms) ->
  (forall m, In m ms -> (exists d', m = JDict d') /\ is_finished m = false) ->
  _normalize_payload (JDict d) season_hint = Ok [].
Proof.
  intros Hd Hms. unfold _normalize_payload. cbn [py_get_default]. rewrite Hd.
  cbn [rbind py_iter]. clear Hd. induction ms as [|m ms IH]; [reflexivity|].
  destruct (Hms m (or_introl eq_refl)) as [[d' ->] Hfin].
  cbn [normalize_matches]. unfold normalize_match at 1.
  change (py_get (JDict d') "status") with (Ok (field (JDict d') "status")).
  cbn [rbind].
  assert (Hne : py_ne_str (field (JDict d') "status") "FINISHED" = true).
  { unfold is_finished in Hfin. destruct (field (JDict d') "status");
      try reflexivity. cbn [py_ne_str]. rewrite Hfin. reflexivity. }
  rewrite Hne. cbn [rbind].
  rewrite IH; [reflexivity|]. intros m' Hm'. apply Hms. right. exact Hm'.
Qed.

(** ** Remote calls made by the ingestion *)

Lemma with_trace_nil (w : world) : with_trace w [] = w.
Proof. destruct w. unfold with_trace. simpl. rewrite app_nil_r. reflexivity. Qed.

Lemma with_trace_app (w : world) (a b : list event) :
  with_trace (with_trace w a) b = with_trace w (a ++ b)%list.
Proof. unfold with_trace. simpl. rewrite app_assoc. reflexivity. Qed.

Lemma remote_calls_app (a b : list event) :
  remote_calls (a ++ b)%list = (remote_calls a ++ remote_calls b)%list.
Proof.
  induction a as [|[r|z] a IH]; simpl; rewrite ?IH; reflexivity.
Qed.

Lemma get_fd_token_run (w : world) :
  _get_fd_token w
  = (if String.eqb (stripped_token w) ""
     then Raise RuntimeError else Ok (stripped_token w), w).
Proof.
  unfold _get_fd_token, stripped_token. destruct (String.eqb _ ""); reflexivity.
Qed.

Lemma fetch_competition_matches_run (code : string) (season : Z) (w : world) :
  fetch_competition_matches code season w
  = if String.eqb (stripped_token w) ""
    then (Raise RuntimeError, w)
    else (http_get (competition_request (stripped_token w) (code, season)),
          with_trace w [EGet (competition_request (stripped_token w) (code, season))]).
Proof.
  unfold fetch_competition_matches, bind. rewrite get_fd_token_run.
  destruct (String.eqb (stripped_token w) ""); reflexivity.
Qed.

Lemma mapM_app_inv {A B : Type} (f : A -> result B) (a b : list A) (ps : list B) :
  mapM f (a ++ b)%list = Ok ps ->
  exists pa pb, mapM f a = Ok pa /\ mapM f b = Ok pb /\ ps = (pa ++ pb)%list.
Proof.
  revert ps. induction a as [|x a IH]; intros ps H.
  - exists [], ps. repeat split. exact H.
  - simpl in H. destruct (f x) as [y|] eqn:Hx; cbn [rbind] in H; [|discriminate].
    destruct (mapM f (a ++ b)%list) as [ys|] eqn:Hab; cbn [rbind] in H;
      [|discriminate].
    injection H as <-. destruct (IH ys eq_refl) as (pa & pb & Ha & Hb & ->).
    exists (y :: pa), pb. simpl. rewrite Hx, Ha. repeat split. exact Hb.
Qed.

(** The inner loop when every fetch and every normalisation succeeds. *)
Lemma ingest_seasons_run (have : list (cell * cell)) (sleep_s : Z) (code : string)
    (seasons : list Z) (parts ps : list frame) (w : world) :
  stripped_token w <> "" ->
  mapM (fetch_part (stripped_token w))
       (filter (fun p => negb (in_have (fst p) (snd p) have))
               (map (pair code) seasons)) = Ok ps ->
  ingest_seasons have sleep_s code seasons parts w
  = (Ok (parts ++ nonempty_parts ps)%list,
     with_trace w
       (flat_map (round_events (stripped_token w) sleep_s)
          (filter (fun p => negb (in_have (fst p) (snd p) have))
                  (map (pair code) seasons)))).
Proof.
  intros Htok. revert parts ps w Htok.
  induction seasons as [|s seasons IH]; intros parts ps w Htok H.
  - simpl in H. injection H as <-. simpl.
    rewrite app_nil_r, with_trace_nil. reflexivity.
  - cbn [map filter fst snd] in H |- *. cbn [ingest_seasons].
    destruct (in_have code s have); cbn [negb] in H |- *; [apply IH; assumption|].
    cbn [mapM] in H. unfold fetch_part at 1 in H. cbn [snd] in H.
    unfold bind at 1. rewrite fetch_competition_matches_run.
    apply String.eqb_neq in Htok. rewrite Htok. apply String.eqb_neq in Htok.
    destruct (http_get _) as [payload|]; cbn [rbind] in H; [|discriminate].
    unfold bind at 1, lift at 1.
    destruct (_normalize_payload payload (Some s)) as [part|]; cbn [rbind] in H;
      [|discriminate].
    destruct (mapM _ _) as [ps'|] eqn:Hrest; cbn [rbind] in H; [|discriminate].
    injection H as <-.
    unfold bind at 1, emit at 1.
    change (mkWorld (environ_token (with_trace w ?a)) _ _ _ _) with
      (with_trace (with_trace w a) [ESleep sleep_s]).
    match goal with
    | |- ingest_seasons _ _ _ _ ?parts' ?w' = _ =>
        rewrite (IH parts' ps' w' Htok Hrest)
    end.
    cbn [flat_map]. rewrite !with_trace_app. unfold round_events at 2.
    cbn [app]. f_equal. f_equal.
    destruct part; cbn [nonempty_parts filter]; [reflexivity|].
    rewrite <- app_assoc. reflexivity.
Qed.

(** The outer loop when every fetch and every normalisation succeeds. *)
Lemma ingest_codes_run (have : list (cell * cell)) (sleep_s : Z)
    (codes : list string) (seasons : list Z) (parts ps : list frame) (w : world) :
  stripped_token w <> "" ->
  mapM (fetch_part (stripped_token w)) (missing_pairs have codes seasons) = Ok ps ->
  ingest_codes have sleep_s codes seasons parts w
  = (Ok (parts ++ nonempty_parts ps)%list,
     with_trace w
       (flat_map (round_events (stripped_token w) sleep_s)
          (missing_pairs have codes seasons))).
Proof.
  intros Htok. revert parts ps w Htok. unfold missing_pairs.
  induction codes as [|c codes IH]; intros parts ps w Htok H.
  - simpl in H. injection H as <-. simpl.
    rewrite app_nil_r, with_trace_nil. reflexivity.
  - cbn [list_prod] in H |- *. rewrite filter_app in H |- *.
    apply mapM_app_inv in H. destruct H as (pa & pb & Ha & Hb & ->).
    cbn [ingest_codes]. unfold bind.
    rewrite (ingest_seasons_run have sleep_s c seasons parts pa w Htok Ha).
    match goal with
    | |- ingest_codes _ _ _ _ ?parts' ?w' = _ =>
        rewrite (IH parts' pb w' Htok Hb)
    end.
    rewrite with_trace_app, flat_map_app. unfold nonempty_parts.
    rewrite filter_app, app_assoc. reflexivity.
Qed.


(** The inner loop, whatever happens: the calls made are for the first of
    the missing pairs, all of them when the loop returns. *)
Lemma ingest_seasons_prefix (have : list (cell * cell)) (sleep_s : Z) (code : string)
    (seasons : list Z) (parts : list frame) (w : world) :
  exists t fetched rest,
    snd (ingest_seasons have sleep_s code seasons parts w) = with_trace w t
    /\ filter (fun p => negb (in_have (fst p) (snd p) have))
              (map (pair code) seasons) = (fetched ++ rest)%list
    /\ remote_calls t = map (competition_request (stripped_token w)) fetched
    /\ (is_ok (fst (ingest_seasons have sleep_s code seasons parts w)) -> rest = []).
Proof.
  revert parts w. induction seasons as [|s seasons IH]; intros parts w.
  - exists [], [], []. simpl. rewrite with_trace_nil. repeat split.
  - cbn [map filter fst snd]. cbn [ingest_seasons].
    destruct (in_have code s have); cbn [negb]; [apply IH|].
    unfold bind, lift, emit. rewrite fetch_competition_matches_run.
    destruct (String.eqb (stripped_token w) "") eqn:Htok.
    { exists [], []. eexists.
      cbn [fst snd]. rewrite with_trace_nil.
      split; [reflexivity|]. split; [reflexivity|]. split; [reflexivity|].
      intros [a Ha]. discriminate. }
    set (req := competition_request (stripped_token w) (code, s)).
    destruct (http_get req) as [payload|e].
    2:{ exists [EGet req], [(code, s)]. eexists.
        cbn [fst snd].
        split; [reflexivity|]. split; [reflexivity|]. split; [reflexivity|].
        intros [a Ha]. discriminate. }
    destruct (_normalize_payload payload (Some s)) as [part|e].
    2:{ exists [EGet req], [(code, s)]. eexists.
        cbn [fst snd].
        split; [reflexivity|]. split; [reflexivity|]. split; [reflexivity|].
        intros [a Ha]. discriminate. }
    change (mkWorld (environ_token (with_trace w ?a)) _ _ _ _) with
      (with_trace (with_trace w a) [ESleep sleep_s]).
    match goal with
    | |- context [ingest_seasons _ _ _ _ ?parts' ?w'] =>
        destruct (IH parts' w') as (t & fetched & rest & Hw & Hmiss & Hcalls & Hok)
    end.
    exists ([EGet req; ESleep sleep_s] ++ t)%list, ((code, s) :: fetched), rest.
    rewrite !with_trace_app in *. rewrite Hw. split; [reflexivity|].
    split; [rewrite Hmiss; reflexivity|].
    split; [cbn [app remote_calls map]; rewrite Hcalls; reflexivity | exact Hok].
Qed.

Lemma ingest_codes_prefix (have : list (cell * cell)) (sleep_s : Z)
    (codes : list string) (seasons : list Z) (parts : list frame) (w : world) :
  exists t fetched rest,
    snd (ingest_codes have sleep_s codes seasons parts w) = with_trace w t
    /\ missing_pairs have codes seasons = (fetched ++ rest)%list
    /\ remote_calls t = map (competition_request (stripped_token w)) fetched
    /\ (is_ok (fst (ingest_codes have sleep_s codes seasons parts w)) -> rest = []).
Proof.
  revert parts w. unfold missing_pairs.
  induction codes as [|c codes IH]; intros parts w.
  - exists [], [], []. simpl. rewrite with_trace_nil. repeat split.
  - cbn [list_prod].
    change (map (fun y : Z => (c, y)) seasons) with (map (pair c) seasons).
    rewrite filter_app. cbn [ingest_codes]. unfold bind.
    destruct (ingest_seasons_prefix have sleep_s c seasons parts w)
      as (t1 & f1 & r1 & Hw1 & Hm1 & Hc1 & Hok1).
    destruct (ingest_seasons have sleep_s c seasons parts w) as [[parts'|e] w1];
      cbn [fst snd] in *; subst w1.
    + rewrite (Hok1 (ex_intro _ parts' eq_refl)), app_nil_r in Hm1.
      destruct (IH parts' (with_trace w t1))
        as (t2 & f2 & r2 & Hw2 & Hm2 & Hc2 & Hok2).
      exists (t1 ++ t2)%list, (f1 ++ f2)%list, r2.
      rewrite Hw2, with_trace_app. split; [reflexivity|].
      split; [rewrite Hm1, Hm2, app_assoc; reflexivity|].
      split; [rewrite remote_calls_app, map_app, Hc1, Hc2; reflexivity | exact Hok2].
    + exists t1, f1. eexists.
      split; [reflexivity|].
      split; [rewrite Hm1, <- app_assoc; reflexivity|].
      split; [exact Hc1|]. intros [a Ha]. discriminate.
Qed.

(** Whatever happens during an ingestion, the calls it makes are for an
    initial part of the requested pairs the dataset lacks, in the order of
    the loops: it never fetches a pair it has, never skips ahead, and on
    return it has fetched them all. *)
Theorem ingest_calls_prefix (df_hist : option frame) (codes : list string)
    (seasons : list Z) (sleep_s : Z) (w : world) (have : list (cell * cell)) :
  existing_comp_seasons df_hist = Ok have ->
  exists t fetched rest,
    snd (ingest_missing_seasons df_hist codes seasons sleep_s w) = with_trace w t
    /\ missing_pairs have codes seasons = (fetched ++ rest)%list
    /\ remote_calls t = map (competition_request (stripped_token w)) fetched
    /\ (is_ok (fst (ingest_missing_seasons df_hist codes seasons sleep_s w)) ->
        rest = []).
Proof.
  intros Hhave. unfold ingest_missing_seasons, bind, lift. rewrite Hhave.
  destruct (ingest_codes_prefix have sleep_s codes seasons [] w)
    as (t & fetched & rest & Hw & Hm & Hc & Hok).
  destruct (ingest_codes have sleep_s codes seasons [] w) as [[parts|e] w1];
    cbn [fst snd] in *; subst w1; exists t, fetched, rest.
  - repeat split; try assumption. intros _. apply Hok. exists parts. reflexivity.
  - repeat split; try assumption. intros [a Ha]. discriminate.
Qed.

(** ** Without a token *)

Lemma ingest_seasons_no_token (have : list (cell * cell)) (sleep_s : Z)
    (code : string) (seasons : list Z) (parts : list frame) (w : world) :
  stripped_token w = "" ->
  ingest_seasons have sleep_s code seasons parts w
  = (match filter (fun p => negb (in_have (fst p) (snd p) have))
                  (map (pair code) seasons) with
     | [] => Ok parts
     | _ => Raise RuntimeError
     end, w).
Proof.
  intros Htok. induction seasons as [|s seasons IH]; [reflexivity|].
  cbn [map filter fst snd ingest_seasons].
  destruct (in_have code s have); cbn [negb]; [exact IH|].
  unfold bind at 1. rewrite fetch_competition_matches_run, Htok. reflexivity.
Qed.

Lemma ingest_codes_no_token (have : list (cell * cell)) (sleep_s : Z)
    (codes : list string) (seasons : list Z) (parts : list frame) (w : world) :
  stripped_token w = "" ->
  ingest_codes have sleep_s codes seasons parts w
  = (match missing_pairs have codes seasons with
     | [] => Ok parts
     | _ => Raise RuntimeError
     end, w).
Proof.
  intros Htok. unfold missing_pairs.
  induction codes as [|c codes IH]; [reflexivity|].
  cbn [list_prod ingest_codes]. rewrite filter_app. unfold bind.
  rewrite (ingest_seasons_no_token _ _ _ _ _ _ Htok).
  destruct (filter _ (map (pair c) seasons)); [exact IH | reflexivity].
Qed.

(** Without a usable token (the variable unset, empty or blank) nothing is
    requested: an ingestion that has a pair to fetch, and a refresh, raise
    [RuntimeError] and leave the world, its trace of calls included, as it
    was. *)
Theorem no_token_no_request (df_hist : option frame) (codes : list string)
    (w : world) :
  stripped_token w = "" ->
  (forall seasons sleep_s have,
     existing_comp_seasons df_hist = Ok have ->
     missing_pairs have codes seasons <> [] ->
     ingest_missing_seasons df_hist codes seasons sleep_s w
     = (Raise RuntimeError, w))
  /\ (8 <= utcnow_date w ->
      refresh_last_7_days df_hist codes w = (Raise RuntimeError, w)).
Proof.
  intros Htok. split.
  - intros seasons sleep_s have Hhave Hmiss.
    unfold ingest_missing_seasons, bind, lift. rewrite Hhave.
    rewrite (ingest_codes_no_token _ _ _ _ _ _ Htok).
    destruct (missing_pairs have codes seasons); [contradiction | reflexivity].
  - intros Hday. unfold refresh_last_7_days, bind, lift, date_sub_days.
    replace (1 <=? utcnow_date w - 7) with true by (symmetry; apply Z.leb_le; lia).
    unfold fetch_matches_by_date, bind. rewrite get_fd_token_run, Htok.
    reflexivity.
Qed.

(** ** What an ingestion or a refresh returns *)

Lemma ingest_returns_merge (df_hist : option frame) (codes : list string)
    (seasons : list Z) (sleep_s : Z) (w : world) (out : frame) :
  fst (ingest_missing_seasons df_hist codes seasons sleep_s w) = Ok out ->
  exists incoming, merge_dedup df_hist incoming = Ok out.
Proof.
  unfold ingest_missing_seasons, bind, lift.
  destruct (existing_comp_seasons df_hist); [|discriminate].
  destruct (ingest_codes _ _ _ _ _ _) as [[parts|] w1]; [|discriminate].
  cbn [fst]. intros H. eexists. exact H.
Qed.

Lemma refresh_returns_merge (df_hist : option frame) (codes : list string)
    (w : world) (out : frame) :
  fst (refresh_last_7_days df_hist codes w) = Ok out ->
  exists incoming, merge_dedup df_hist incoming = Ok out.
Proof.
  unfold refresh_last_7_days, bind, lift.
  destruct (date_sub_days _ _); [|discriminate].
  destruct (fetch_matches_by_date _ _ _ _) as [[payload|] w1]; [|discriminate].
  destruct (_normalize_payload payload None); [|discriminate].
  cbn [fst]. intros H. eexists. exact H.
Qed.

(** What an ingestion or a refresh returns is a dataset (standard rows,
    sorted by date, one row per identity key) that still holds every match
    of the dataset it started from, by identity key. *)
Theorem mutation_keeps_matches (df_hist : option frame) (codes : list string)
    (seasons : list Z) (sleep_s : Z) (w : world) (out : frame) :
  fst (ingest_missing_seasons df_hist codes seasons sleep_s w) = Ok out
  \/ fst (refresh_last_7_days df_hist codes w) = Ok out ->
  is_dataset out = true
  /\ exists E, _standardize df_hist = Ok E
               /\ forall r, In r E -> has_key out r = true.
Proof.
  intros H.
  assert (Hm : exists incoming, merge_dedup df_hist incoming = Ok out).
  { destruct H as [H|H];
      [exact (ingest_returns_merge _ _ _ _ _ _ H)
      | exact (refresh_returns_merge _ _ _ _ H)]. }
  destruct Hm as [incoming Hm]. split; [exact (merge_dedup_is_dataset _ _ _ Hm)|].
  pose proof Hm as Hm'. unfold merge_dedup in Hm'.
  destruct (_standardize df_hist) as [E|] eqn:HE; cbn [rbind] in Hm'; [|discriminate].
  destruct (_standardize incoming) as [I|] eqn:HI; cbn [rbind] in Hm'; [|discriminate].
  exists E. split; [reflexivity|]. intros r Hr.
  rewrite (merge_dedup_has_key _ _ _ _ _ r HE HI Hm).
  apply orb_true_iff. left. apply existsb_exists. exists r.
  split; [exact Hr | apply same_key_refl].
Qed.

(** ** Cache *)

Lemma file_lookup_written (fs : list (string * string)) (path content p : string) :
  file_lookup ((path, content) :: fs) p
  = if String.eqb path p then Some content else file_lookup fs p.
Proof. reflexivity. Qed.



(** ** The actions of the control surface *)

Lemma commit_dataset (df : frame) (path : string) (w : world) :
  is_dataset df = true ->
  bind (set_session df) (fun _ => save_cache df path) w
  = (Ok tt, mkWorld (environ_token w) (utcnow_date w) (trace w)
                    ((path, to_csv df) :: files w) (Some df)).
Proof.
  intros Hd. unfold is_dataset in Hd. rewrite !andb_true_iff in Hd.
  destruct Hd as [[Hstd Hsorted] _].
  unfold bind, set_session, save_cache.
  rewrite (standardize_fixed _ Hstd Hsorted). reflexivity.
Qed.

Lemma on_ingest_run (cache_path : string) (codes : list string) (seasons : list Z)
    (sleep_s : Z) (w : world) :
  on_ingest_missing_seasons cache_path codes seasons sleep_s w
  = match fst (load_cache cache_path w) with
    | Ok cached =>
        match ingest_missing_seasons (session_or w cached) codes seasons sleep_s w with
        | (Ok df, w1) =>
            (Ok tt, mkWorld (environ_token w1) (utcnow_date w1) (trace w1)
                            ((cache_path, to_csv df) :: files w1) (Some df))
        | (Raise e, w1) => (Raise e, w1)
        end
    | Raise e => (Raise e, w)
    end.
Proof.
  unfold on_ingest_missing_seasons. unfold bind at 1.
  pose proof (load_cache_world cache_path w) as Hw.
  destruct (load_cache cache_path w) as [[cached|e] w0]; cbn [fst snd] in *;
    subst w0; [|reflexivity].
  unfold bind at 1, session_get at 1. fold (session_or w cached).
  unfold bind at 1.
  destruct (ingest_missing_seasons _ _ _ _ w) as [[df|e] w1] eqn:Hrun;
    [|reflexivity].
  apply commit_dataset.
  assert (Hfst : fst (ingest_missing_seasons (session_or w cached) codes seasons
                        sleep_s w) = Ok df) by (rewrite Hrun; reflexivity).
  destruct (ingest_returns_merge _ _ _ _ _ _ Hfst) as [incoming Hm].
  exact (merge_dedup_is_dataset _ _ _ Hm).
Qed.

Lemma on_refresh_run (cache_path : string) (codes : list string) (w : world) :
  on_refresh_last_7_days cache_path codes w
  = match fst (load_cache cache_path w) with
    | Ok cached =>
        match refresh_last_7_days (session_or w cached) codes w with
        | (Ok df, w1) =>
            (Ok tt, mkWorld (environ_token w1) (utcnow_date w1) (trace w1)
                            ((cache_path, to_csv df) :: files w1) (Some df))
        | (Raise e, w1) => (Raise e, w1)
        end
    | Raise e => (Raise e, w)
    end.
Proof.
  unfold on_refresh_last_7_days. unfold bind at 1.
  pose proof (load_cache_world cache_path w) as Hw.
  destruct (load_cache cache_path w) as [[cached|e] w0]; cbn [fst snd] in *;
    subst w0; [|reflexivity].
  unfold bind at 1, session_get at 1. fold (session_or w cached).
  unfold bind at 1.
  destruct (refresh_last_7_days _ _ w) as [[df|e] w1] eqn:Hrun; [|reflexivity].
  apply commit_dataset.
  assert (Hfst : fst (refresh_last_7_days (session_or w cached) codes w) = Ok df)
    by (rewrite Hrun; reflexivity).
  destruct (refresh_returns_merge _ _ _ _ Hfst) as [incoming Hm].
  exact (merge_dedup_is_dataset _ _ _ Hm).
Qed.

Lemma refresh_last_7_days_store (df_hist : option frame) (codes : list string)
    (w : world) :
  same_store w (snd (refresh_last_7_days df_hist codes w)).
Proof.
  unfold refresh_last_7_days, bind, lift.
  destruct (date_sub_days _ _); [|apply same_store_refl].
  unfold fetch_matches_by_date, bind. rewrite get_fd_token_run.
  destruct (String.eqb (stripped_token w) ""); [apply same_store_refl|].
  unfold requests_get, bind, emit, lift.
  destruct (http_get _) as [payload|]; [|repeat split].
  destruct (_normalize_payload payload None); repeat split.
Qed.



(** ** Pairs counted as present *)


End Engine.

(** * The properties on the sample data *)

(** The normaliser on the sample payloads, with and without season hint. *)
Example normalize_sample_payload :
  _normalize_payload iso8601_utc sample_to_datetime_other decimal_int sample_repr
    (sample_payload [sample_match_scored; sample_match_unscored]) None
  = Ok [sample_row "Premier League"].
Proof. reflexivity. Qed.

Example normalize_sample_payload_hint :
  _normalize_payload iso8601_utc sample_to_datetime_other decimal_int sample_repr
    (sample_payload [sample_match_unscored; sample_match_scored]) (Some 2021)
  = Ok [set_Season (VInt 2021) (sample_row "Premier League")].
Proof. reflexivity. Qed.

(** Standardising rows as a file gives them: the date is parsed, strings
    are stripped, numbers are read, the incomplete row is dropped, the rest
    is sorted; a second pass changes nothing. *)
Example standardize_sample_rows :
  _standardize iso8601_utc decimal_int decimal_int
    (Some [sample_row_later; sample_row_no_home; sample_row_no_competition])
  = Ok [set_CompCode (VStr "None") (set_Competition (VStr "nan") (sample_row "x"));
        sample_row_later].
Proof. reflexivity. Qed.

Example standardize_sample_rows_twice :
  _standardize iso8601_utc decimal_int decimal_int
    (Some [set_CompCode (VStr "None") (set_Competition (VStr "nan") (sample_row "x"));
           sample_row_later])
  = Ok [set_CompCode (VStr "None") (set_Competition (VStr "nan") (sample_row "x"));
        sample_row_later].
Proof. reflexivity. Qed.

(** A goal count that is not a number makes the whole call raise. *)
Example standardize_sample_raises :
  _standardize iso8601_utc decimal_int decimal_int
    (Some [sample_row_later; set_FTHG (VStr "two") sample_row_later])
  = Raise ValueError.
Proof. reflexivity. Qed.

(** An ingestion of two missing seasons: a call and a sleep for each. *)
Example ingest_sample_trace :
  trace (snd (ingest_missing_seasons iso8601_utc iso8601_utc
                sample_to_datetime_other decimal_int decimal_int sample_repr
                service_up None ["PL"] [2021; 2022] 6 sample_world))
  = [EGet {| url := "https://api.football-data.org/v4/competitions/PL/matches";
             auth_token := "secret"; params := [("season", "2021")] |};
     ESleep 6;
     EGet {| url := "https://api.football-data.org/v4/competitions/PL/matches";
             auth_token := "secret"; params := [("season", "2022")] |};
     ESleep 6].
Proof. reflexivity. Qed.



(** One match held under two competition names: the merge keeps the
    incoming one. *)
Lemma merge_keeps_incoming_version_witness :
  _standardize iso8601_utc decimal_int decimal_int
    (Some [sample_row "Premier League"]) = Ok [sample_row "Premier League"]
  /\ _standardize iso8601_utc decimal_int decimal_int
       (Some [sample_row "EPL"]) = Ok [sample_row "EPL"]
  /\ In (sample_row "Premier League") [sample_row "Premier League"]
  /\ In (sample_row "EPL") [sample_row "EPL"]
  /\ same_key (sample_row "Premier League") (sample_row "EPL") = true
  /\ Competition (sample_row "Premier League") <> Competition (sample_row "EPL")
  /\ exists merged w,
       merge_dedup iso8601_utc decimal_int decimal_int
         (Some [sample_row "Premier League"]) (Some [sample_row "EPL"]) = Ok merged
       /\ filter (same_key (sample_row "EPL")) merged = [w]
       /\ In w [sample_row "EPL"]
       /\ w = last (filter (same_key (sample_row "EPL")) [sample_row "EPL"])
                   (sample_row "EPL")
       /\ (filter (same_key (sample_row "EPL")) [sample_row "EPL"]
           = [sample_row "EPL"] ->
           w = sample_row "EPL"
           /\ Competition w <> Competition (sample_row "Premier League")).
Proof.
  assert (Hne : Competition (sample_row "Premier League")
                <> Competition (sample_row "EPL")) by (simpl; discriminate).
  repeat (split; [first [reflexivity | left; reflexivity | exact Hne]|]).
  apply (merge_keeps_incoming_version iso8601_utc decimal_int decimal_int
           (Some [sample_row "Premier League"]) (Some [sample_row "EPL"])
           [sample_row "Premier League"] [sample_row "EPL"]
           (sample_row "Premier League") (sample_row "EPL"));
    first [reflexivity | left; reflexivity | exact Hne].
Defined.


(** On 2024-06-15 the window is 2024-06-08 to 2024-06-15. *)
Lemma refresh_window_witness :
  environ_token sample_world = Some "secret"
  /\ strip "secret" <> ""
  /\ 8 <= utcnow_date sample_world
  /\ exists req date_from,
       remote_calls
         (trace (snd (refresh_last_7_days iso8601_utc iso8601_utc
                        sample_to_datetime_other decimal_int decimal_int
                        sample_repr service_up None ["PL"] sample_world)))
         = (remote_calls (trace sample_world) ++ [req])%list
       /\ date_sub_days (utcnow_date sample_world) 7 = Ok date_from
       /\ utcnow_date sample_world - date_from = 7
       /\ has_param req "dateFrom" (date_str date_from)
       /\ has_param req "dateTo" (date_str (utcnow_date sample_world))
       /\ (utcnow_date sample_world = ymd2ord 2024 6 15 ->
           has_param req "dateFrom" "2024-06-08"
           /\ has_param req "dateTo" "2024-06-15").
Proof.
  assert (Hne : strip "secret" <> "") by (vm_compute; discriminate).
  assert (Hday : 8 <= utcnow_date sample_world) by (vm_compute; discriminate).
  split; [reflexivity|]. split; [exact Hne|]. split; [exact Hday|].
  exact (refresh_window iso8601_utc iso8601_utc sample_to_datetime_other
           decimal_int decimal_int sample_repr service_up None ["PL"]
           sample_world "secret" eq_refl Hne Hday).
Defined.

(** Two codes selected: one call, restricted to [PL,PD]. *)
Lemma refresh_single_call_witness :
  environ_token sample_world = Some "secret"
  /\ strip "secret" <> ""
  /\ 8 <= utcnow_date sample_world
  /\ exists req,
       trace (snd (refresh_last_7_days iso8601_utc iso8601_utc
                     sample_to_datetime_other decimal_int decimal_int
                     sample_repr service_up None ["PL"; "PD"] sample_world))
         = (trace sample_world ++ [EGet req])%list
       /\ url req = BASE_URL ++ "/matches"
       /\ has_param req "dateFrom" (date_str (utcnow_date sample_world - 7))
       /\ has_param req "dateTo" (date_str (utcnow_date sample_world))
       /\ has_param req "status" "FINISHED"
       /\ (join "," ["PL"; "PD"] <> "" ->
           has_param req "competitions" (join "," ["PL"; "PD"]))
       /\ (join "," ["PL"; "PD"] = "" ->
           forall v, ~ has_param req "competitions" v).
Proof.
  assert (Hne : strip "secret" <> "") by (vm_compute; discriminate).
  assert (Hday : 8 <= utcnow_date sample_world) by (vm_compute; discriminate).
  split; [reflexivity|]. split; [exact Hne|]. split; [exact Hday|].
  exact (refresh_single_call iso8601_utc iso8601_utc sample_to_datetime_other
           decimal_int decimal_int sample_repr service_up None ["PL"; "PD"]
           sample_world "secret" eq_refl Hne Hday).
Defined.

(** C7 as stated fails on the empty code list: the one call that is issued
    carries no competition restriction, neither the joined list (the empty
    string) nor any other. *)
Lemma refresh_empty_codes_counterexample :
  trace (snd (refresh_last_7_days iso8601_utc iso8601_utc
                sample_to_datetime_other decimal_int decimal_int
                sample_repr service_up None [] sample_world))
    = [EGet {| url := "https://api.football-data.org/v4/matches";
               auth_token := "secret";
               params := [("dateFrom", "2024-06-08"); ("dateTo", "2024-06-15");
                          ("status", "FINISHED")] |}]
  /\ ~ exists req,
        In (EGet req)
           (trace (snd (refresh_last_7_days iso8601_utc iso8601_utc
                          sample_to_datetime_other decimal_int decimal_int
                          sample_repr service_up None [] sample_world)))
        /\ has_param req "competitions" (join "," []).
Proof.
  split; [reflexivity|].
  intros (req & Hin & Hparam). vm_compute in Hin.
  destruct Hin as [Hin|[]]. injection Hin as <-.
  vm_compute in Hparam.
  destruct Hparam as [H|[H|[H|[]]]]; discriminate H.
Qed.

(** A payload with a finished match with both scores and a finished match
    with a score missing yields one record. *)
Lemma normalize_drop_rule_witness :
  py_get_default (sample_payload [sample_match_scored; sample_match_unscored])
    "matches" (JList []) = Ok (JList [sample_match_scored; sample_match_unscored])
  /\ forallb api_entry [sample_match_scored; sample_match_unscored] = true
  /\ (exists rows,
        _normalize_payload iso8601_utc sample_to_datetime_other decimal_int
          sample_repr (sample_payload [sample_match_scored; sample_match_unscored])
          None = Ok rows
        /\ List.length rows = 1%nat)
  /\ normalize_match iso8601_utc sample_to_datetime_other decimal_int sample_repr
       None sample_match_unscored = Ok None.
Proof.
  split; [reflexivity|]. split; [reflexivity|].
  destruct (normalize_drop_rule iso8601_utc sample_to_datetime_other decimal_int
              sample_repr None
              (sample_payload [sample_match_scored; sample_match_unscored])
              [sample_match_scored; sample_match_unscored] eq_refl eq_refl)
    as [Hentry (rows & Hrows & Hlen)].
  split.
  - exists rows. split; [exact Hrows | exact Hlen].
  - apply (Hentry sample_match_unscored); [right; left; reflexivity | reflexivity].
Defined.

(** C8 as stated fails on an entry of another shape: a finished match whose
    full-time score is a pair has no home and away score, yet it is not
    dropped: the normaliser raises, and no record of the payload is
    returned. *)
Lemma normalize_drop_rule_counterexample :
  is_finished sample_match_pair = true
  /\ scores_present sample_match_pair = false
  /\ normalize_match iso8601_utc sample_to_datetime_other decimal_int sample_repr
       None sample_match_pair = Raise AttributeError
  /\ normalize_match iso8601_utc sample_to_datetime_other decimal_int sample_repr
       None sample_match_pair <> Ok None
  /\ _normalize_payload iso8601_utc sample_to_datetime_other decimal_int sample_repr
       (sample_payload [sample_match_scored; sample_match_pair]) None
     = Raise AttributeError.
Proof.
  split; [reflexivity|]. split; [reflexivity|]. split; [reflexivity|].
  split; [|reflexivity]. vm_compute. intros H. discriminate H.
Qed.

(** The service is down and (PL, 2022) is missing: the action raises and
    writes nothing. *)
Lemma ingest_aborts_on_remote_failure_witness :
  In "PL" ["PL"] /\ In 2022 [2021; 2022]
  /\ fetch_fails service_down sample_world "PL" 2022
  /\ (exists e,
        fst (on_ingest_missing_seasons iso8601_utc iso8601_utc
               sample_to_datetime_other decimal_int decimal_int sample_repr
               service_down sample_to_csv sample_read_csv
               "fd_history.csv" ["PL"] [2021; 2022] 6 sample_world) = Raise e)
  /\ files (snd (on_ingest_missing_seasons iso8601_utc iso8601_utc
                   sample_to_datetime_other decimal_int decimal_int sample_repr
                   service_down sample_to_csv sample_read_csv
                   "fd_history.csv" ["PL"] [2021; 2022] 6 sample_world))
     = files sample_world
  /\ session_state (snd (on_ingest_missing_seasons iso8601_utc iso8601_utc
                           sample_to_datetime_other decimal_int decimal_int
                           sample_repr service_down sample_to_csv sample_read_csv
                           "fd_history.csv" ["PL"] [2021; 2022] 6 sample_world))
     = session_state sample_world.
Proof.
  assert (Hc : In "PL" ["PL"]) by (left; reflexivity).
  assert (Hs : In 2022 [2021; 2022]) by (right; left; reflexivity).
  assert (Hfail : fetch_fails service_down sample_world "PL" 2022)
    by (exists HTTPError; reflexivity).
  split; [exact Hc|]. split; [exact Hs|]. split; [exact Hfail|].
  apply (ingest_aborts_on_remote_failure iso8601_utc iso8601_utc
           sample_to_datetime_other decimal_int decimal_int sample_repr
           service_down sample_to_csv sample_read_csv
           "fd_history.csv" ["PL"] [2021; 2022] 6 sample_world "PL" 2022
           Hc Hs Hfail).
  intros cached have Hload Hhave. vm_compute in Hload. injection Hload as <-.
  vm_compute in Hhave. injection Hhave as <-. reflexivity.
Defined.

(** A row without competition code and name is kept under the strings
    [None] and [nan]; a row without home team is dropped. *)
Lemma standardize_keeps_null_competition_witness :
  _standardize iso8601_utc decimal_int decimal_int
    (Some [sample_row_no_competition; sample_row_no_home])
  = Ok [set_CompCode (VStr "None") (set_Competition (VStr "nan") (sample_row "x"))]
  /\ List.length
       [set_CompCode (VStr "None") (set_Competition (VStr "nan") (sample_row "x"))]
     = List.length (filter (retained iso8601_utc)
                      [sample_row_no_competition; sample_row_no_home])
  /\ exists r',
       In r' [set_CompCode (VStr "None") (set_Competition (VStr "nan") (sample_row "x"))]
       /\ CompCode r' = VStr "None"
       /\ Competition r' = VStr "nan"
       /\ In (CompCode r', Season r') [(VStr "None", VInt 2022)].
Proof.
  assert (Hstd : _standardize iso8601_utc decimal_int decimal_int
                   (Some [sample_row_no_competition; sample_row_no_home])
                 = Ok [set_CompCode (VStr "None")
                         (set_Competition (VStr "nan") (sample_row "x"))])
    by reflexivity.
  destruct (standardize_keeps_null_competition iso8601_utc decimal_int decimal_int
              _ _ Hstd) as (Hlen & Hkept & _).
  split; [exact Hstd|]. split; [exact Hlen|].
  destruct (Hkept sample_row_no_competition (or_introl eq_refl) eq_refl)
    as (r' & Hin & Hrow & Hcc & Hco & Hhave).
  exists r'. split; [exact Hin|].
  destruct Hin as [<-|[]].
  split; [reflexivity|]. split; [reflexivity|]. left. reflexivity.
Defined.

(** * The further properties on the sample data *)

Local Abbreviation std := (_standardize iso8601_utc decimal_int decimal_int).
Local Abbreviation merge := (merge_dedup iso8601_utc decimal_int decimal_int).
Local Abbreviation normalize :=
  (_normalize_payload iso8601_utc sample_to_datetime_other decimal_int sample_repr).
Local Abbreviation ingest_with service :=
  (ingest_missing_seasons iso8601_utc iso8601_utc sample_to_datetime_other
     decimal_int decimal_int sample_repr service).
Local Abbreviation refresh_with service :=
  (refresh_last_7_days iso8601_utc iso8601_utc sample_to_datetime_other
     decimal_int decimal_int sample_repr service).
Local Abbreviation on_ingest_with service :=
  (on_ingest_missing_seasons iso8601_utc iso8601_utc sample_to_datetime_other
     decimal_int decimal_int sample_repr service sample_to_csv sample_read_rows).
Local Abbreviation sample_row_unknown :=
  (set_CompCode (VStr "None") (set_Competition (VStr "nan") (sample_row "x"))).

Lemma standardize_result_shape_witness :
  std (Some [sample_row_later; sample_row_no_home; sample_row_no_competition])
  = Ok [sample_row_unknown; sample_row_later]
  /\ sorted_by_date [sample_row_unknown; sample_row_later] = true
  /\ forallb standard_row [sample_row_unknown; sample_row_later] = true
  /\ (List.length [sample_row_unknown; sample_row_later] <= 3)%nat.
Proof.
  split; [reflexivity|].
  exact (standardize_result_shape iso8601_utc decimal_int decimal_int
           (Some [sample_row_later; sample_row_no_home; sample_row_no_competition])
           [sample_row_unknown; sample_row_later] eq_refl).
Defined.



Lemma merge_dedup_keys_witness :
  std (Some [sample_row_later; sample_row "Premier League"])
  = Ok [sample_row "Premier League"; sample_row_later]
  /\ std (Some [sample_row "EPL"]) = Ok [sample_row "EPL"]
  /\ merge (Some [sample_row_later; sample_row "Premier League"])
           (Some [sample_row "EPL"])
     = Ok [sample_row "EPL"; sample_row_later]
  /\ (forall r, In r [sample_row "EPL"; sample_row_later] ->
        In r [sample_row "Premier League"; sample_row_later]
        \/ In r [sample_row "EPL"])
  /\ (forall r, has_key [sample_row "EPL"; sample_row_later] r
                = has_key [sample_row "Premier League"; sample_row_later] r
                  || has_key [sample_row "EPL"] r)
  /\ (forall r, In r [sample_row "Premier League"; sample_row_later]
                \/ In r [sample_row "EPL"] ->
        has_key [sample_row "EPL"; sample_row_later] r = true).
Proof.
  split; [reflexivity|]. split; [reflexivity|]. split; [reflexivity|].
  exact (merge_dedup_keys iso8601_utc decimal_int decimal_int
           (Some [sample_row_later; sample_row "Premier League"])
           (Some [sample_row "EPL"])
           [sample_row "Premier League"; sample_row_later] [sample_row "EPL"]
           [sample_row "EPL"; sample_row_later] eq_refl eq_refl eq_refl).
Defined.

Lemma merge_dedup_assoc_keys_witness :
  std (Some [sample_row "Premier League"]) = Ok [sample_row "Premier League"]
  /\ std (Some [sample_row "EPL"]) = Ok [sample_row "EPL"]
  /\ std (Some [sample_row_later]) = Ok [sample_row_later]
  /\ exists grouped_left grouped_right,
       (AB <- merge (Some [sample_row "Premier League"]) (Some [sample_row "EPL"]) ;;
        merge (Some AB) (Some [sample_row_later]))%result = Ok grouped_left
       /\ (BC <- merge (Some [sample_row "EPL"]) (Some [sample_row_later]) ;;
           merge (Some [sample_row "Premier League"]) (Some BC))%result
          = Ok grouped_right
       /\ forall r,
            has_key grouped_left r = has_key grouped_right r
            /\ has_key grouped_left r
               = has_key [sample_row "Premier League"] r
                 || has_key [sample_row "EPL"] r || has_key [sample_row_later] r.
Proof.
  split; [reflexivity|]. split; [reflexivity|]. split; [reflexivity|].
  exact (merge_dedup_assoc_keys iso8601_utc decimal_int decimal_int
           (Some [sample_row "Premier League"]) (Some [sample_row "EPL"])
           (Some [sample_row_later])
           [sample_row "Premier League"] [sample_row "EPL"] [sample_row_later]
           eq_refl eq_refl eq_refl).
Defined.

Lemma normalize_payload_rows_witness :
  normalize (sample_payload [sample_match_unscored; sample_match_scored]) (Some 2021)
  = Ok [set_Season (VInt 2021) (sample_row "Premier League")]
  /\ (forall r, In r [set_Season (VInt 2021) (sample_row "Premier League")] ->
        exists t, Date r = DTime t /\ is_int (FTHG r) = true
                  /\ is_int (FTAG r) = true
                  /\ Season r = VInt (season_of (Some 2021) t))
  /\ (forall ms,
        field (sample_payload [sample_match_unscored; sample_match_scored]) "matches"
        = JList ms ->
        (List.length [set_Season (VInt 2021) (sample_row "Premier League")]
         <= List.length ms)%nat).
Proof.
  split; [reflexivity|].
  exact (normalize_payload_rows iso8601_utc sample_to_datetime_other decimal_int
           sample_repr
           (sample_payload [sample_match_unscored; sample_match_scored]) (Some 2021)
           [set_Season (VInt 2021) (sample_row "Premier League")] eq_refl).
Defined.

Lemma normalize_payload_edges_witness :
  normalize (JList [sample_match_scored]) None = Raise AttributeError
  /\ normalize (JDict [("count", JInt 0)]) None = Ok []
  /\ normalize (JDict [("count", JInt 0); ("matches", JList [])]) None = Ok []
  /\ normalize (JDict [("matches", JNull)]) None = Raise TypeError.
Proof.
  destruct (normalize_payload_edges iso8601_utc sample_to_datetime_other
              decimal_int sample_repr None) as (Hother & Hmissing & Hempty & Hnull).
  split; [apply Hother; intros d H; discriminate H|].
  split; [apply Hmissing; reflexivity|].
  split; [apply Hempty; reflexivity|].
  apply (Hnull _ JNull); [reflexivity | left; reflexivity].
Defined.

Lemma normalize_skips_unfinished_witness :
  dict_get [("matches", JList [sample_match_scheduled; sample_match_scheduled])]
    "matches" = Some (JList [sample_match_scheduled; sample_match_scheduled])
  /\ (forall m, In m [sample_match_scheduled; sample_match_scheduled] ->
        (exists d', m = JDict d') /\ is_finished m = false)
  /\ normalize (JDict [("matches",
                        JList [sample_match_scheduled; sample_match_scheduled])])
       None = Ok [].
Proof.
  assert (Hms : forall m, In m [sample_match_scheduled; sample_match_scheduled] ->
                  (exists d', m = JDict d') /\ is_finished m = false).
  { intros m [<-|[<-|[]]]; (split; [eexists; reflexivity | reflexivity]). }
  split; [reflexivity|]. split; [exact Hms|].
  exact (normalize_skips_unfinished iso8601_utc sample_to_datetime_other
           decimal_int sample_repr None
           [("matches", JList [sample_match_scheduled; sample_match_scheduled])]
           [sample_match_scheduled; sample_match_scheduled] eq_refl Hms).
Defined.


Lemma ingest_calls_prefix_witness :
  existing_comp_seasons iso8601_utc decimal_int decimal_int
    (Some [sample_row "Premier League"]) = Ok [(VStr "PL", VInt 2022)]
  /\ exists t fetched rest,
       snd (ingest_with service_down (Some [sample_row "Premier League"]) ["PL"]
              [2021; 2022; 2023] 6 sample_world) = with_trace sample_world t
       /\ missing_pairs [(VStr "PL", VInt 2022)] ["PL"] [2021; 2022; 2023]
          = (fetched ++ rest)%list
       /\ remote_calls t
          = map (competition_request (stripped_token sample_world)) fetched
       /\ (is_ok (fst (ingest_with service_down (Some [sample_row "Premier League"])
                         ["PL"] [2021; 2022; 2023] 6 sample_world)) ->
           rest = []).
Proof.
  split; [reflexivity|].
  exact (ingest_calls_prefix iso8601_utc iso8601_utc sample_to_datetime_other
           decimal_int decimal_int sample_repr service_down
           (Some [sample_row "Premier League"]) ["PL"] [2021; 2022; 2023] 6
           sample_world [(VStr "PL", VInt 2022)] eq_refl).
Defined.

Lemma no_token_no_request_witness :
  stripped_token sample_world_no_token = ""
  /\ ingest_with service_up None ["PL"] [2022] 6 sample_world_no_token
     = (Raise RuntimeError, sample_world_no_token)
  /\ refresh_with service_up None ["PL"] sample_world_no_token
     = (Raise RuntimeError, sample_world_no_token).
Proof.
  destruct (no_token_no_request iso8601_utc iso8601_utc sample_to_datetime_other
              decimal_int decimal_int sample_repr service_up None ["PL"]
              sample_world_no_token eq_refl) as [Hingest Hrefresh].
  split; [reflexivity|]. split.
  - apply (Hingest [2022] 6 []); [reflexivity | discriminate].
  - apply Hrefresh. vm_compute. discriminate.
Defined.

Lemma mutation_keeps_matches_witness :
  fst (ingest_with service_up (Some [sample_row_later]) ["PL"] [2021] 6 sample_world)
  = Ok [set_Season (VInt 2021) (sample_row "Premier League"); sample_row_later]
  /\ is_dataset [set_Season (VInt 2021) (sample_row "Premier League");
                 sample_row_later] = true
  /\ exists E, std (Some [sample_row_later]) = Ok E
               /\ forall r, In r E ->
                    has_key [set_Season (VInt 2021) (sample_row "Premier League");
                             sample_row_later] r = true.
Proof.
  split; [reflexivity|].
  apply (mutation_keeps_matches iso8601_utc iso8601_utc sample_to_datetime_other
           decimal_int decimal_int sample_repr service_up
           (Some [sample_row_later]) ["PL"] [2021] 6 sample_world).
  left. reflexivity.
Defined.





